(** * Project tracker backend: authorization-scoped CRUD and realtime relay

    A shallow embedding of [src/backend/server.js]: the token middleware,
    the register and login routes, the four project routes, the statistics
    route and the socket.io relay, over an explicit model of the two MongoDB
    collections and of the socket.io room table.

    Conventions.
    - A route handler [async (req, res) => ...] is a function from the
      database (and the request's parts) to the database afterwards and the
      one response it sends: [DB * Response].
    - [try { ... } catch (error) { res.status(500)... }] is the [option]
      monad inside a handler: [None] is a rejected promise (a Mongoose
      [CastError], a [ValidationError], a duplicate key) and every handler
      maps it to [internal_error].
    - Mongoose, bcrypt and jsonwebtoken are libraries the repository calls
      but does not contain. Their contracts are written out where the
      handlers need them (string and ObjectId casts, [required] and [enum]
      validators, [populate]); what cannot be computed here (date parsing,
      hashing, signing) is a field of the [Platform] class. *)

From stdpp Require Import gmap strings list fin_maps.

Local Open Scope string_scope.
Set Warnings "-register-all,-clear-no-such-hyp".

(** ** Request bodies *)

(** A parsed JSON value. A number is kept as the text [Number.prototype.toString]
    gives for it, which is all the handlers ever observe of a number. *)
Inductive JSON : Type :=
  | JNull
  | JBool (b : bool)
  | JNum (repr : string)
  | JStr (s : string)
  | JArr (items : list JSON)
  | JObj (fields : list (string * JSON)).

(** [req.body] and a socket event payload: a JSON object, [!!] is property
    access and [None] is [undefined]. *)
Abbreviation Body := (gmap string JSON).

Fixpoint assoc (k : string) (fields : list (string * JSON)) : option JSON :=
  match fields with
  | [] => None
  | (k', v) :: rest => if String.eqb k k' then Some v else assoc k rest
  end.

Fixpoint join (sep : string) (parts : list string) : string :=
  match parts with
  | [] => EmptyString
  | [p] => p
  | p :: rest => p ++ sep ++ join sep rest
  end.

(** [String(v)], as a template literal and [value.toString()] compute it. *)
Fixpoint js_toString (v : JSON) : string :=
  match v with
  | JNull => "null"
  | JBool true => "true"
  | JBool false => "false"
  | JNum repr => repr
  | JStr s => s
  | JArr items =>
      join "," (List.map (fun e => match e with JNull => EmptyString | _ => js_toString e end) items)
  | JObj _ => "[object Object]"
  end.

(** [`${x}`] where [x] may be [undefined]. *)
Definition template (x : option JSON) : string :=
  match x with
  | None => "undefined"
  | Some v => js_toString v
  end.

(** ** ObjectIds *)

(** A 12-byte identifier, as the number its 24 hexadecimal digits denote. *)
Abbreviation ObjectId := N.

Definition hex_digit (c : Ascii.ascii) : option N :=
  let n := Ascii.N_of_ascii c in
  if (48 <=? n)%N && (n <=? 57)%N then Some (n - 48)%N
  else if (97 <=? n)%N && (n <=? 102)%N then Some (n - 87)%N
  else if (65 <=? n)%N && (n <=? 70)%N then Some (n - 55)%N
  else None.

Fixpoint hex_value (acc : N) (s : string) : option N :=
  match s with
  | EmptyString => Some acc
  | String c rest =>
      match hex_digit c with
      | Some d => hex_value (16 * acc + d)%N rest
      | None => None
      end
  end.

(** [new ObjectId(s)] for a string: 24 hexadecimal digits or a cast error. *)
Definition castObjectId (s : string) : option ObjectId :=
  if Nat.eqb (String.length s) 24 then hex_value 0%N s else None.

(** ** Schema casts

    The outer [option] is the cast's outcome ([None]: [CastError]); the inner
    one is the value, [None] being [null]. *)

Definition castString (v : JSON) : option (option string) :=
  match v with
  | JNull => Some None
  | JArr _ => None
  | JObj fields =>
      match assoc "_id" fields with
      | Some (JStr s) => Some (Some s)
      | _ => None
      end
  | _ => Some (Some (js_toString v))
  end.

Definition castRef (v : JSON) : option (option ObjectId) :=
  match v with
  | JNull => Some None
  | JObj fields =>
      match assoc "_id" fields with
      | Some i => Some <$> castObjectId (js_toString i)
      | None => None
      end
  | _ => Some <$> castObjectId (js_toString v)
  end.

(** An array path of ObjectIds; a value that is not an array is cast as the
    one-element array holding it. [null], for the path or for an element,
    is stored as it is and refers to no user: [collaborators] keeps the
    references that are there. *)
Definition castRefs (v : JSON) : option (list ObjectId) :=
  match v with
  | JNull => Some []
  | _ =>
      let items := match v with JArr items => items | _ => [v] end in
      omap id <$> mapM castRef items
  end.

(** What the libraries compute and this development does not: date parsing
    for [Date] paths, password comparison and token signing. *)
Class Platform := {
  castDate : JSON → option (option Z);
  bcrypt_compare : string → string → bool;
  jwt_sign : ObjectId → string → string
}.

(** ** Documents *)

(** [userSchema]. *)
Record User := {
  username : string;
  email : string;
  password : string;
  role : string
}.

(** [projectSchema]. A path that holds [null] or was never set is [None];
    [collaborators] is an array path and defaults to the empty array. *)
Record Project := {
  name : option string;
  description : option string;
  technology : option string;
  status : option string;
  owner : option ObjectId;
  collaborators : list ObjectId;
  createdAt : option Z;
  updatedAt : option Z
}.

(** The two collections, keyed by [_id] (MongoDB keeps [_id] unique). *)
Record DB := {
  users : gmap ObjectId User;
  projects : gmap ObjectId Project
}.

Definition with_projects (db : DB) (ps : gmap ObjectId Project) : DB :=
  {| users := users db; projects := ps |}.

(** ** Validation, run by [save()] *)

Definition status_enum : list string :=
  ["planning"; "development"; "testing"; "deployed"].

(** [required: true] on a String path: neither null nor the empty string. *)
Definition required_string (v : option string) : bool :=
  match v with
  | Some s => negb (String.eqb s EmptyString)
  | None => false
  end.

(** [enum: [...]] runs only on a value that is set. *)
Definition enum_ok (values : list string) (v : option string) : bool :=
  match v with
  | Some s => bool_decide (s ∈ values)
  | None => true
  end.

Definition validate (p : Project) : bool :=
  required_string (name p) && required_string (technology p)
  && enum_ok status_enum (status p) && bool_decide (is_Some (owner p)).

(** ** Responses *)

(** A populated reference: [populate(path, 'username email')] keeps the
    [_id] and the two selected fields. *)
Record UserRef := {
  ref_id : ObjectId;
  ref_username : string;
  ref_email : string
}.

(** A project as serialised in a response: the document, its [_id], and the
    populated paths ([None] in [owner_ref]: the user is gone, the path
    serialises as null; [None] in [collaborator_refs]: not populated). *)
Record ProjectView := {
  _id : ObjectId;
  doc : Project;
  owner_ref : option UserRef;
  collaborator_refs : option (list UserRef)
}.

Record PublicUser := {
  pu_id : ObjectId;
  pu_username : string;
  pu_email : string;
  pu_role : string
}.

Inductive Json : Type :=
  | Error (error : string)
  | Message (message : string)
  | OneProject (project : ProjectView)
  | Projects (found : list ProjectView)
  | Session (message token : string) (user : PublicUser).

(** [res.status(code).json(payload)]. *)
Record Response := {
  statusCode : nat;
  json : Json
}.

Definition respond (code : nat) (payload : Json) : Response :=
  {| statusCode := code; json := payload |}.

(** Every handler's [catch] block. *)
Definition internal_error : Response := respond 500 (Error "Internal server error").

(** ** Populate *)

Definition lookup_ref (us : gmap ObjectId User) (i : ObjectId) : option UserRef :=
  (λ u, {| ref_id := i; ref_username := username u; ref_email := email u |}) <$> us !! i.

Definition populate_owner (us : gmap ObjectId User) (p : Project) : option UserRef :=
  owner p ≫= lookup_ref us.

Definition populate_collaborators (us : gmap ObjectId User) (p : Project) : list UserRef :=
  omap (lookup_ref us) (collaborators p).

(** ** Queries *)

(** The filter [{ $or: [{ owner: userId }, { collaborators: userId }] }]: an
    array path matches a value when one of its elements equals it. *)
Definition visible_to (userId : ObjectId) (p : Project) : bool :=
  bool_decide (owner p = Some userId) || bool_decide (userId ∈ collaborators p).

(** The filter [{ owner: userId }]. *)
Definition owned_by (userId : ObjectId) (p : Project) : bool :=
  bool_decide (owner p = Some userId).

(** [Model.find(filter)]: the matching documents with their [_id]. *)
Definition find {A} (coll : gmap ObjectId A) (filter : A → bool) : list (ObjectId * A) :=
  List.filter (λ d, filter d.2) (map_to_list coll).

(** [Model.findOne({ _id, ...filter })] once [_id] has been cast. *)
Definition findOne_by_id {A} (coll : gmap ObjectId A) (i : ObjectId) (filter : A → bool) : option A :=
  match coll !! i with
  | Some d => if filter d then Some d else None
  | None => None
  end.

(** [User.findOne({ email })]. *)
Definition findOne_by_email (coll : gmap ObjectId User) (e : string) : option (ObjectId * User) :=
  head (find coll (λ u, String.eqb (email u) e)).

(** ** Writes *)

(** Assigning [x] to a schema path: [undefined] leaves the path as it is,
    anything else goes through the path's cast. *)
Definition set_path {A} (cast : JSON → option A) (old : A) (x : option JSON) : option A :=
  match x with
  | None => Some old
  | Some v => cast v
  end.

(** [save()] of a new document: validation, then an insert that the unique
    [_id] index refuses when the identifier is taken. *)
Definition save_new (db : DB) (i : ObjectId) (p : Project) : option DB :=
  if validate p then
    match projects db !! i with
    | None => Some (with_projects db (<[i := p]> (projects db)))
    | Some _ => None
    end
  else None.

(** [save()] of a document that was loaded from the collection. *)
Definition save (db : DB) (i : ObjectId) (p : Project) : option DB :=
  if validate p then Some (with_projects db (<[i := p]> (projects db))) else None.

Definition populated (db : DB) (i : ObjectId) (p : Project) : ProjectView :=
  {| _id := i; doc := p;
     owner_ref := populate_owner (users db) p;
     collaborator_refs := Some (populate_collaborators (users db) p) |}.

Definition owner_populated (db : DB) (i : ObjectId) (p : Project) : ProjectView :=
  {| _id := i; doc := p;
     owner_ref := populate_owner (users db) p;
     collaborator_refs := None |}.

Section Routes.
Context `{Platform}.

(** *** POST /api/auth/login *)
Definition post_login (db : DB) (email_ password_ : string) : Response :=
  match findOne_by_email (users db) email_ with
  | None => respond 401 (Error "Invalid credentials")
  | Some (i, user) =>
      if bcrypt_compare password_ (password user) then
        respond 200 (Session "Login successful" (jwt_sign i (username user))
                       {| pu_id := i; pu_username := username user;
                          pu_email := email user; pu_role := role user |})
      else respond 401 (Error "Invalid credentials")
  end.

(** *** GET /api/projects *)
Definition get_projects (db : DB) (userId : ObjectId) : Response :=
  respond 200
    (Projects (List.map (λ d, populated db d.1 d.2) (find (projects db) (visible_to userId)))).

(** *** POST /api/projects *)

(** [new Project({ name, description, technology, owner })] with the
    schema defaults; [newId] is the identifier the driver generates and
    [now] is [Date.now()]. *)
Definition new_Project (body : Body) (userId : ObjectId) (now : Z) : option Project :=
  name' ← set_path castString None (body !! "name");
  description' ← set_path castString None (body !! "description");
  technology' ← set_path castString None (body !! "technology");
  Some {| name := name'; description := description'; technology := technology';
          status := Some "planning"; owner := Some userId; collaborators := [];
          createdAt := Some now; updatedAt := Some now |}.

Definition post_projects (db : DB) (userId : ObjectId) (body : Body)
    (newId : ObjectId) (now : Z) : DB * Response :=
  match new_Project body userId now with
  | Some project =>
      match save_new db newId project with
      | Some db' => (db', respond 201 (OneProject (owner_populated db' newId project)))
      | None => (db, internal_error)
      end
  | None => (db, internal_error)
  end.

(** *** PUT /api/projects/:id *)

(** An [_id] in the updates that casts to the identifier the document has
    changes nothing. Any other [_id] is outside what this embedding follows
    (see [names_only_schema_paths]); it is taken to fail the save. *)
Definition keep_id (i : ObjectId) (x : option JSON) : option unit :=
  match x with
  | None => Some ()
  | Some v =>
      match castRef v with
      | Some (Some j) => if N.eqb i j then Some () else None
      | _ => None
      end
  end.

(** [Object.assign(project, updates)] on the schema's paths. The later
    assignment [project.updatedAt = new Date()] replaces whatever the
    updates put on that path. The embedding is exact for updates that name
    schema paths only ([names_only_schema_paths]). A key that is no schema
    path lands on the document object itself, where it can shadow [save],
    [populate], [isNew] and the like; the embedding does not follow that
    and skips such keys. *)
Definition Object_assign (i : ObjectId) (p : Project) (updates : Body) : option Project :=
  _ ← keep_id i (updates !! "_id");
  name' ← set_path castString (name p) (updates !! "name");
  description' ← set_path castString (description p) (updates !! "description");
  technology' ← set_path castString (technology p) (updates !! "technology");
  status' ← set_path castString (status p) (updates !! "status");
  owner' ← set_path castRef (owner p) (updates !! "owner");
  collaborators' ← set_path castRefs (collaborators p) (updates !! "collaborators");
  createdAt' ← set_path castDate (createdAt p) (updates !! "createdAt");
  Some {| name := name'; description := description'; technology := technology';
          status := status'; owner := owner'; collaborators := collaborators';
          createdAt := createdAt'; updatedAt := updatedAt p |}.

Definition touch (now : Z) (p : Project) : Project :=
  {| name := name p; description := description p; technology := technology p;
     status := status p; owner := owner p; collaborators := collaborators p;
     createdAt := createdAt p; updatedAt := Some now |}.

Definition put_project (db : DB) (userId : ObjectId) (id : string) (updates : Body)
    (now : Z) : DB * Response :=
  match castObjectId id with
  | None => (db, internal_error)
  | Some i =>
      match findOne_by_id (projects db) i (visible_to userId) with
      | None => (db, respond 404 (Error "Project not found"))
      | Some project =>
          match Object_assign i project updates with
          | Some assigned =>
              let project' := touch now assigned in
              match save db i project' with
              | Some db' => (db', respond 200 (OneProject (populated db' i project')))
              | None => (db, internal_error)
              end
          | None => (db, internal_error)
          end
      end
  end.

(** *** DELETE /api/projects/:id *)
Definition delete_project (db : DB) (userId : ObjectId) (id : string) : DB * Response :=
  match castObjectId id with
  | None => (db, internal_error)
  | Some i =>
      match findOne_by_id (projects db) i (owned_by userId) with
      | None => (db, respond 404 (Error "Project not found or insufficient permissions"))
      | Some _ =>
          (with_projects db (delete i (projects db)),
           respond 200 (Message "Project deleted successfully"))
      end
  end.
End Routes.

(** ** Realtime relay ([io.on('connection', ...)]) *)

Abbreviation SocketId := string.

(** The adapter's room table: room name to the sockets joined to it. *)
Abbreviation Rooms := (gmap string (gset SocketId)).

Definition members (rooms : Rooms) (room : string) : gset SocketId :=
  default ∅ (rooms !! room).

(** [socket.join(room)]. *)
Definition socket_join (rooms : Rooms) (socket : SocketId) (room : string) : Rooms :=
  <[room := {[socket]} ∪ members rooms room]> rooms.

(** A new connection: socket.io puts the socket in the room named by its id. *)
Definition on_connection (rooms : Rooms) (socket : SocketId) : Rooms :=
  socket_join rooms socket socket.

(** The room of a project: [`project-${projectId}`]. *)
Definition project_room (projectId : option JSON) : string :=
  "project-" ++ template projectId.

(** [socket.on('join-project', (projectId) => ...)]. *)
Definition on_join_project (rooms : Rooms) (socket : SocketId) (projectId : option JSON) : Rooms :=
  socket_join rooms socket (project_room projectId).

(** One event put on one socket's connection. *)
Record Delivery := {
  recipient : SocketId;
  event : string;
  payload : Body
}.

(** [socket.to(room).emit(event, data)]: every socket of the room but the
    emitting one. *)
Definition socket_to_emit (rooms : Rooms) (socket : SocketId) (room event_ : string)
    (data : Body) : list Delivery :=
  (λ r, {| recipient := r; event := event_; payload := data |})
    <$> elements (members rooms room ∖ {[socket]}).

(** [socket.on('project-update', (data) => ...)]. *)
Definition on_project_update (rooms : Rooms) (socket : SocketId) (data : Body) : list Delivery :=
  socket_to_emit rooms socket (project_room (data !! "projectId")) "project-updated" data.

(** A disconnect: socket.io takes the socket out of every room; the handler
    itself only logs. *)
Definition on_disconnect (rooms : Rooms) (socket : SocketId) : Rooms :=
  (λ sockets, sockets ∖ {[socket]}) <$> rooms.

(** ** Runs of the project service *)

(** One request to the service, with what the environment supplies for it
    (the generated identifier, the clock). *)
Inductive Operation : Type :=
  | Create (userId : ObjectId) (body : Body) (newId : ObjectId) (now : Z)
  | Update (userId : ObjectId) (id : string) (updates : Body) (now : Z)
  | Delete (userId : ObjectId) (id : string)
  | ListVisible (userId : ObjectId)
  | Login (email_ password_ : string).

Definition step `{Platform} (db : DB) (op : Operation) : DB :=
  match op with
  | Create userId body newId now => (post_projects db userId body newId now).1
  | Update userId id updates now => (put_project db userId id updates now).1
  | Delete userId id => (delete_project db userId id).1
  | ListVisible _ => db
  | Login _ _ => db
  end.

Definition run `{Platform} (db : DB) (ops : list Operation) : DB :=
  foldl step db ops.

(** An update whose body has an [owner] property. *)
Definition patches_owner (op : Operation) : bool :=
  match op with
  | Update _ _ updates _ => bool_decide (is_Some (updates !! "owner"))
  | _ => false
  end.

(** A create for which the driver generated the identifier [i]. *)
Definition issues (i : ObjectId) (op : Operation) : bool :=
  match op with
  | Create _ _ newId _ => N.eqb newId i
  | _ => false
  end.

(** The paths of [projectSchema] other than [_id]. *)
Definition schema_paths : list string :=
  ["name"; "description"; "technology"; "status"; "owner"; "collaborators";
   "createdAt"; "updatedAt"].

(** The updates name schema paths only: no [_id] and no key that would land
    on the document object. *)
Definition names_only_schema_paths (updates : Body) : bool :=
  forallb (λ entry, bool_decide (entry.1 ∈ schema_paths)) (map_to_list updates).

(** A request whose update body, if it has one, names schema paths only. *)
Definition plain (op : Operation) : bool :=
  match op with
  | Update _ _ updates _ => names_only_schema_paths updates
  | _ => true
  end.

(** The array a [GET /api/projects] response carries. *)
Definition listed (db : DB) (userId : ObjectId) : list ProjectView :=
  match json (get_projects db userId) with
  | Projects found => found
  | _ => []
  end.

(** ** Concrete data for the closed examples *)

(** Deterministic stand-ins for the libraries: only [null] parses as a date,
    a hash is the password behind a prefix, a token names its user. *)
Definition fake_platform : Platform := {|
  castDate := λ v, match v with JNull => Some None | _ => None end;
  bcrypt_compare := λ pw hash, String.eqb ("hash:" ++ pw) hash;
  jwt_sign := λ _ name_, "token:" ++ name_
|}.

Definition alice : ObjectId := 0x64b000000000000000000001%N.
Definition bob : ObjectId := 0x64b000000000000000000002%N.
Definition demo : ObjectId := 0x64c000000000000000000001%N.
Definition demo_hex : string := "64c000000000000000000001".
Definition bob_hex : string := "64b000000000000000000002".

(** Two registered users and no project. *)
Definition seed_db : DB := {|
  users := {[ alice := {| username := "alice"; email := "alice@x.com";
                          password := "hash:pw"; role := "user" |};
              bob := {| username := "bob"; email := "bob@x.com";
                        password := "hash:hunter2"; role := "user" |} ]};
  projects := ∅
|}.

Definition demo_body : Body := {[ "name" := JStr "Demo"; "technology" := JStr "React" ]}.

(** Alice has created the project [demo]. *)
Definition created_db : DB := (post_projects seed_db alice demo_body demo 1000).1.

(** Alice has then made Bob a collaborator. *)
Definition shared_db : DB :=
  (@put_project fake_platform created_db alice demo_hex
     {[ "collaborators" := JArr [JStr bob_hex] ]} 2000).1.

(** The same request body with a status, an owner, collaborators and a
    creation time of the client's choosing. *)
Definition crowded_body : Body :=
  <["status" := JStr "deployed"]> (<["owner" := JStr "64b000000000000000000001"]>
    (<["collaborators" := JArr [JStr "64b000000000000000000001"]]>
       (<["createdAt" := JNum "0"]> demo_body))).

(** The document Alice's create stored, and the one after Bob was added. *)
Definition demo_project : Project := {|
  name := Some "Demo"; description := None; technology := Some "React";
  status := Some "planning"; owner := Some alice; collaborators := [];
  createdAt := Some 1000%Z; updatedAt := Some 1000%Z
|}.

Definition shared_project : Project := {|
  name := Some "Demo"; description := None; technology := Some "React";
  status := Some "planning"; owner := Some alice; collaborators := [bob];
  createdAt := Some 1000%Z; updatedAt := Some 2000%Z
|}.

(** ** Token check ([authenticateToken]) *)

(** [s.split(' ')]: the pieces between single spaces, empty pieces kept. *)
Fixpoint split_space (s : string) : list string :=
  match s with
  | EmptyString => [EmptyString]
  | String c rest =>
      if Ascii.eqb c Ascii.Space then EmptyString :: split_space rest
      else match split_space rest with
           | [] => [String c EmptyString]
           | piece :: pieces => String c piece :: pieces
           end
  end.

(** A text without a space. *)
Fixpoint space_free (s : string) : bool :=
  match s with
  | EmptyString => true
  | String c rest => negb (Ascii.eqb c Ascii.Space) && space_free rest
  end.

(** The payload [jwt.sign] was given: [{ userId, username }]. After the
    round trip through the token, [userId] is the identifier's text. *)
Record Claims := {
  claim_userId : string;
  claim_username : string
}.

(** [jwt.verify(token, secret, callback)]: the payload, or [None] for the
    callback's [err] (bad signature, expired, malformed). *)
Class Verifier := {
  jwt_verify : string → option Claims
}.

(** [bcrypt.hash(password, saltRounds)]; the salt it draws is an argument. *)
Class Hasher := {
  bcrypt_hash : string → nat → string → string
}.

(** [authHeader && authHeader.split(' ')[1]]. *)
Definition token_of (authHeader : option string) : option string :=
  match authHeader with
  | None => None
  | Some h => if String.eqb h EmptyString then Some h else split_space h !! 1
  end.

(** [!token]. *)
Definition falsy (token : option string) : bool :=
  match token with
  | None => true
  | Some t => String.eqb t EmptyString
  end.

(** The middleware either answers itself or sets [req.user] and calls
    [next()]. *)
Inductive Checked : Type :=
  | Answered (res : Response)
  | Next (user : Claims).

Definition authenticateToken `{Verifier} (authHeader : option string) : Checked :=
  let token := token_of authHeader in
  if falsy token then Answered (respond 401 (Error "Access token required"))
  else
    match jwt_verify (default EmptyString token) with
    | None => Answered (respond 403 (Error "Invalid token"))
    | Some user => Next user
    end.

(** A route registered as [app.METHOD(path, authenticateToken, handler)].
    The handler's filters and documents take [req.user.userId] as it is, so
    Mongoose casts it to an ObjectId; a text that does not cast makes the
    query or the save reject, which is the handler's 500. *)
Definition protected `{Verifier} (db : DB) (authHeader : option string)
    (handler : ObjectId → DB * Response) : DB * Response :=
  match authenticateToken authHeader with
  | Answered res => (db, res)
  | Next user =>
      match castObjectId (claim_userId user) with
      | Some userId => handler userId
      | None => (db, internal_error)
      end
  end.

(** The four project routes behind the middleware. *)
Definition route_get_projects `{Verifier} (db : DB) (authHeader : option string) : DB * Response :=
  protected db authHeader (λ userId, (db, get_projects db userId)).

Definition route_post_projects `{Verifier} (db : DB) (authHeader : option string)
    (body : Body) (newId : ObjectId) (now : Z) : DB * Response :=
  protected db authHeader (λ userId, post_projects db userId body newId now).

Definition route_put_project `{Platform} `{Verifier} (db : DB) (authHeader : option string)
    (id : string) (updates : Body) (now : Z) : DB * Response :=
  protected db authHeader (λ userId, put_project db userId id updates now).

Definition route_delete_project `{Verifier} (db : DB) (authHeader : option string)
    (id : string) : DB * Response :=
  protected db authHeader (λ userId, delete_project db userId id).

(** ** POST /api/auth/login, any password *)

(** The login handler for a body whose [email] is a string and whose
    [password] is any value or missing. [bcrypt.compare] rejects when the
    password is not a string, which the catch block answers with 500. *)
Definition post_login_body `{Platform} (db : DB) (email_ : string)
    (password_ : option JSON) : Response :=
  match findOne_by_email (users db) email_ with
  | None => respond 401 (Error "Invalid credentials")
  | Some (i, user) =>
      match password_ with
      | Some (JStr pw) =>
          if bcrypt_compare pw (password user) then
            respond 200 (Session "Login successful" (jwt_sign i (username user))
                           {| pu_id := i; pu_username := username user;
                              pu_email := email user; pu_role := role user |})
          else respond 401 (Error "Invalid credentials")
      | _ => internal_error
      end
  end.

(** ** POST /api/auth/register *)

(** The filter [{ $or: [{ email }, { username }] }]. *)
Definition same_email_or_username (email_ username_ : string) (u : User) : bool :=
  String.eqb (email u) email_ || String.eqb (username u) username_.

Definition validate_user (u : User) : bool :=
  required_string (Some (username u)) && required_string (Some (email u))
  && required_string (Some (password u)).

(** [user.save()] of a new user. *)
Definition save_new_user (db : DB) (i : ObjectId) (u : User) : option DB :=
  if validate_user u then
    match users db !! i with
    | None => Some {| users := <[i := u]> (users db); projects := projects db |}
    | Some _ => None
    end
  else None.

(** The handler for a body whose three fields are strings. [salt] is what
    bcrypt draws and [newId] the identifier the driver generates. The
    [createdAt] default of the user schema is not carried by [User]: no
    route reads it. *)
Definition post_register `{Platform} `{Hasher} (db : DB) (username_ email_ password_ : string)
    (salt : string) (newId : ObjectId) : DB * Response :=
  match head (find (users db) (same_email_or_username email_ username_)) with
  | Some _ => (db, respond 400 (Error "User already exists"))
  | None =>
      let saltRounds := 12 in
      let hashedPassword := bcrypt_hash password_ saltRounds salt in
      let user := {| username := username_; email := email_;
                     password := hashedPassword; role := "user" |} in
      match save_new_user db newId user with
      | Some db' =>
          (db', respond 201
                  (Session "User created successfully" (jwt_sign newId (username user))
                     {| pu_id := newId; pu_username := username user;
                        pu_email := email user; pu_role := role user |}))
      | None => (db, internal_error)
      end
  end.

(** ** GET /api/analytics/stats *)

(** [{ $group: { _id: '$path', count: { $sum: 1 } } }] over the values of
    the path in the matched documents: one group per distinct value. *)
Definition group_count (values : list (option string)) : gmap (option string) nat :=
  foldr (λ v groups, <[v := S (default 0 (groups !! v))]> groups) ∅ values.

Definition aggregate_by (path : Project → option string) (db : DB) (userId : ObjectId)
    : list (option string * nat) :=
  map_to_list (group_count (List.map (λ d, path d.2) (find (projects db) (visible_to userId)))).

(** The payload of the 200 response. *)
Record Stats := {
  userCount : nat;
  projectCount : nat;
  userProjects : nat;
  projectsByStatus : list (option string * nat);
  projectsByTechnology : list (option string * nat)
}.

(** The handler awaits five queries one after the other; other requests
    can be served in between, so each query reads its own state of the
    database. *)
Definition get_stats_over (at_userCount at_projectCount at_userProjects at_byStatus
    at_byTechnology : DB) (userId : ObjectId) : Stats :=
  {| userCount := size (users at_userCount);
     projectCount := size (projects at_projectCount);
     userProjects := length (find (projects at_userProjects) (visible_to userId));
     projectsByStatus := aggregate_by status at_byStatus userId;
     projectsByTechnology := aggregate_by technology at_byTechnology userId |}.

(** The response when no write lands between the five queries. *)
Definition get_stats (db : DB) (userId : ObjectId) : Stats :=
  get_stats_over db db db db db userId.

(** ** Replies *)

(** The response to one request of a run. *)
Definition reply `{Platform} (db : DB) (op : Operation) : Response :=
  match op with
  | Create userId body newId now => (post_projects db userId body newId now).2
  | Update userId id updates now => (put_project db userId id updates now).2
  | Delete userId id => (delete_project db userId id).2
  | ListVisible userId => get_projects db userId
  | Login email_ password_ => post_login db email_ password_
  end.

Definition is_error (payload : Json) : bool :=
  match payload with
  | Error _ => true
  | _ => false
  end.

(** A 2xx status, what the dashboard reads as [response.ok]. *)
Definition response_ok (r : Response) : bool :=
  Nat.leb 200 (statusCode r) && Nat.leb (statusCode r) 299.

(** ** Invariants of the collections *)

(** Every stored project passes the schema's validators. *)
Definition valid_projects (db : DB) : Prop :=
  ∀ i p, projects db !! i = Some p → validate p = true.

(** No two users share an email or a username (the [unique] indexes). *)
Definition unique_users (db : DB) : Prop :=
  ∀ i j u v, users db !! i = Some u → users db !! j = Some v →
             email u = email v ∨ username u = username v → i = j.

(** Stand-ins for the two other libraries: a token is ["token:"] and the
    identifier's text; a hash is the password behind a prefix. *)
Definition fake_verifier : Verifier := {|
  jwt_verify := λ token,
    if String.prefix "token:" token
    then Some {| claim_userId := String.substring 6 24 token; claim_username := "someone" |}
    else None
|}.

Definition fake_hasher : Hasher := {|
  bcrypt_hash := λ pw _ _, "hash:" ++ pw
|}.

Definition alice_hex : string := "64b000000000000000000001".
Definition carol : ObjectId := 0x64b000000000000000000003%N.

(** * Properties *)

(** ** Queries *)

Lemma findOne_by_id_Some {A} (coll : gmap ObjectId A) i flt d :
  findOne_by_id coll i flt = Some d ↔ coll !! i = Some d ∧ flt d = true.
Proof.
  unfold findOne_by_id. destruct (coll !! i) as [d'|]; [destruct (flt d') eqn:F|].
  - split; [intros [= ->]; done | intros [[= ->] _]; done].
  - split; [done | intros [[= ->] ?]; congruence].
  - split; [done | intros [? _]; done].
Qed.

Lemma findOne_by_id_None {A} (coll : gmap ObjectId A) i flt :
  findOne_by_id coll i flt = None ↔ ∀ d, coll !! i = Some d → flt d = false.
Proof.
  unfold findOne_by_id. destruct (coll !! i) as [d'|]; [destruct (flt d') eqn:F|].
  - split; [done | intros Hall; specialize (Hall d' eq_refl); congruence].
  - split; [intros _ d [= <-]; done | done].
  - split; [intros _ d [=] | done].
Qed.

Lemma visible_to_spec userId p :
  visible_to userId p = true ↔ owner p = Some userId ∨ userId ∈ collaborators p.
Proof.
  unfold visible_to. rewrite orb_true_iff, !bool_decide_eq_true. done.
Qed.

Lemma visible_to_false userId p :
  visible_to userId p = false ↔ owner p ≠ Some userId ∧ userId ∉ collaborators p.
Proof.
  unfold visible_to. rewrite orb_false_iff, !bool_decide_eq_false. done.
Qed.

Lemma owned_by_spec userId p : owned_by userId p = true ↔ owner p = Some userId.
Proof. unfold owned_by. apply bool_decide_eq_true. Qed.

Lemma elem_of_find {A} (coll : gmap ObjectId A) flt i d :
  (i, d) ∈ find coll flt ↔ coll !! i = Some d ∧ flt d = true.
Proof.
  unfold find. rewrite list_elem_of_In, filter_In, <- list_elem_of_In.
  rewrite elem_of_map_to_list. done.
Qed.

(** ** Error handling of the project routes *)

Section Project_errors.
Context `{Platform}.

(** C9. A path parameter that is not an ObjectId makes the [findOne] of the
    update and of the delete route reject, so both answer with the catch
    block's 500 and leave the collection as it was; the answer is not the
    404 of a well-formed id that matches nothing. *)
Theorem malformed_id_is_internal_error (db : DB) (userId : ObjectId) (id : string)
    (updates : Body) (now : Z) :
  castObjectId id = None →
  put_project db userId id updates now = (db, respond 500 (Error "Internal server error"))
  ∧ delete_project db userId id = (db, respond 500 (Error "Internal server error"))
  ∧ statusCode (put_project db userId id updates now).2 ≠ 404
  ∧ statusCode (delete_project db userId id).2 ≠ 404.
Proof.
  intros Hid. unfold put_project, delete_project. rewrite Hid. simpl.
  repeat split; done.
Qed.

(** C3. An update on a well-formed id answers 404 "Project not found" and
    changes nothing both when no project has that id and when the project
    exists but the caller is neither its owner nor a collaborator; the two
    responses are equal. *)
Theorem put_project_not_found_uniform (db_absent db_hidden : DB) (userId : ObjectId)
    (id : string) (i : ObjectId) (p : Project) (updates updates' : Body) (now now' : Z) :
  castObjectId id = Some i →
  projects db_absent !! i = None →
  projects db_hidden !! i = Some p →
  owner p ≠ Some userId →
  userId ∉ collaborators p →
  put_project db_absent userId id updates now
    = (db_absent, respond 404 (Error "Project not found"))
  ∧ put_project db_hidden userId id updates' now'
    = (db_hidden, respond 404 (Error "Project not found"))
  ∧ (put_project db_hidden userId id updates' now').2
    = (put_project db_absent userId id updates now).2.
Proof.
  intros Hid Habsent Hhidden Howner Hcollab.
  assert (findOne_by_id (projects db_absent) i (visible_to userId) = None) as E1.
  { apply findOne_by_id_None. intros d Hd. congruence. }
  assert (findOne_by_id (projects db_hidden) i (visible_to userId) = None) as E2.
  { apply findOne_by_id_None. intros d Hd.
    assert (d = p) as -> by congruence. by apply visible_to_false. }
  unfold put_project. rewrite Hid, E1, E2. done.
Qed.

End Project_errors.

(** ** Create *)

Lemma new_Project_fields (body : Body) (userId : ObjectId) (now : Z) (p : Project) :
  new_Project body userId now = Some p →
  set_path castString None (body !! "name") = Some (name p)
  ∧ set_path castString None (body !! "description") = Some (description p)
  ∧ set_path castString None (body !! "technology") = Some (technology p)
  ∧ status p = Some "planning" ∧ owner p = Some userId ∧ collaborators p = []
  ∧ createdAt p = Some now ∧ updatedAt p = Some now.
Proof.
  unfold new_Project. intros Hnew.
  destruct (set_path castString None (body !! "name")) as [n|]; [|done].
  destruct (set_path castString None (body !! "description")) as [d|]; [|done].
  destruct (set_path castString None (body !! "technology")) as [t|]; [|done].
  simpl in Hnew. injection Hnew as <-. done.
Qed.

Lemma save_new_Some (db db' : DB) (i : ObjectId) (p : Project) :
  save_new db i p = Some db' ↔
  validate p = true ∧ projects db !! i = None
  ∧ db' = with_projects db (<[i := p]> (projects db)).
Proof.
  unfold save_new. destruct (validate p); [destruct (projects db !! i)|].
  - split; [done | intros (_ & ? & _); done].
  - split; [intros [= <-]; done | intros (_ & _ & ->); done].
  - split; [done | intros (? & _); done].
Qed.

(** What a 201 from the create route means. *)
Lemma post_projects_created (db db' : DB) userId body newId now r :
  post_projects db userId body newId now = (db', r) →
  statusCode r = 201 →
  ∃ p, new_Project body userId now = Some p
       ∧ validate p = true
       ∧ projects db !! newId = None
       ∧ db' = with_projects db (<[newId := p]> (projects db))
       ∧ r = respond 201 (OneProject (owner_populated db' newId p)).
Proof.
  unfold post_projects. intros Hpost Hcode.
  destruct (new_Project body userId now) as [p|]; [|by injection Hpost as <- <-].
  destruct (save_new db newId p) as [db1|] eqn:Hsave; [|by injection Hpost as <- <-].
  injection Hpost as <- <-. apply save_new_Some in Hsave as (Hv & Hfree & ->).
  exists p. done.
Qed.

(** A create either inserts one document or leaves the database as it was. *)
Lemma post_projects_db (db : DB) userId body newId now :
  (post_projects db userId body newId now).1 = db
  ∨ ∃ p, new_Project body userId now = Some p ∧ projects db !! newId = None
         ∧ (post_projects db userId body newId now).1
           = with_projects db (<[newId := p]> (projects db)).
Proof.
  unfold post_projects.
  destruct (new_Project body userId now) as [p|]; [|by left].
  destruct (save_new db newId p) as [db1|] eqn:Hsave; [|by left].
  apply save_new_Some in Hsave as (_ & Hfree & ->). right. by exists p.
Qed.

(** C2 (as the code has it). A create request without [name] or without
    [technology] fails validation in [save()], which the handler's catch
    block turns into the generic 500; nothing is persisted. *)
Theorem post_projects_missing_field (db : DB) (userId : ObjectId) (body : Body)
    (newId : ObjectId) (now : Z) :
  body !! "name" = None ∨ body !! "technology" = None →
  post_projects db userId body newId now
    = (db, respond 500 (Error "Internal server error")).
Proof.
  intros Hmissing. unfold post_projects.
  destruct (new_Project body userId now) as [p|] eqn:Hnew; [|done].
  apply new_Project_fields in Hnew as (Hn & _ & Ht & _).
  assert (validate p = false) as Hinvalid.
  { unfold validate. destruct Hmissing as [E|E]; rewrite E in *; simpl in *.
    - injection Hn as <-. done.
    - injection Ht as <-. simpl. by rewrite andb_false_r. }
  unfold save_new. by rewrite Hinvalid.
Qed.

(** C10. The create route reads [name], [description] and [technology] and
    nothing else: two bodies that agree on these three get the same outcome,
    whatever else they carry. A body with a non-empty name and technology
    (and a description that is a string or absent) is answered 201, whatever
    status, owner, collaborators or timestamps it also carries, and the
    project stored and returned has those three values, status "planning",
    the caller as owner, no collaborators and both timestamps at the time of
    the request. *)
Theorem post_projects_reads_three_fields (db : DB) (userId : ObjectId) (body body' : Body)
    (newId : ObjectId) (now : Z) :
  body' !! "name" = body !! "name" →
  body' !! "description" = body !! "description" →
  body' !! "technology" = body !! "technology" →
  post_projects db userId body' newId now = post_projects db userId body newId now
  ∧ (statusCode (post_projects db userId body' newId now).2 = 201 →
     ∃ p, projects (post_projects db userId body' newId now).1 !! newId = Some p
          ∧ status p = Some "planning"
          ∧ owner p = Some userId
          ∧ collaborators p = []
          ∧ createdAt p = Some now ∧ updatedAt p = Some now)
  ∧ (∀ (name_ technology_ : string) (description_ : option string),
       body' !! "name" = Some (JStr name_) → name_ ≠ EmptyString →
       body' !! "technology" = Some (JStr technology_) → technology_ ≠ EmptyString →
       body' !! "description" = JStr <$> description_ →
       projects db !! newId = None →
       let project := {| name := Some name_; description := description_;
                         technology := Some technology_; status := Some "planning";
                         owner := Some userId; collaborators := [];
                         createdAt := Some now; updatedAt := Some now |} in
       let db' := with_projects db (<[newId := project]> (projects db)) in
       post_projects db userId body' newId now
       = (db', respond 201 (OneProject (owner_populated db' newId project)))).
Proof.
  intros Hn Hd Ht. split; [|split].
  - unfold post_projects, new_Project. by rewrite Hn, Hd, Ht.
  - intros Hcode.
    destruct (post_projects db userId body' newId now) as [db' r] eqn:Hpost.
    destruct (post_projects_created _ _ _ _ _ _ _ Hpost Hcode) as (p & Hnew & _ & _ & -> & _).
    apply new_Project_fields in Hnew as (_ & _ & _ & ? & ? & ? & ? & ?).
    exists p. simpl. by rewrite lookup_insert_eq.
  - intros name_ technology_ description_ En Hname Et Htech Ed Hfree project db'.
    assert (new_Project body' userId now = Some project) as Hnew.
    { unfold new_Project. rewrite En, Et, Ed. by destruct description_. }
    assert (validate project = true) as Hvalid.
    { unfold validate. simpl. apply String.eqb_neq in Hname, Htech.
      by rewrite Hname, Htech. }
    unfold post_projects, save_new. by rewrite Hnew, Hvalid, Hfree.
Qed.

(** ** List *)

Lemma elem_of_listed (db : DB) (userId : ObjectId) (v : ProjectView) :
  v ∈ listed db userId ↔
  ∃ p, projects db !! _id v = Some p ∧ v = populated db (_id v) p
       ∧ (owner p = Some userId ∨ userId ∈ collaborators p).
Proof.
  unfold listed, get_projects. simpl. rewrite list_elem_of_In, in_map_iff. split.
  - intros ([i p] & <- & Hin). apply list_elem_of_In, elem_of_find in Hin as [Hp Hvis].
    exists p. simpl. by rewrite <- visible_to_spec.
  - intros (p & Hp & Hv & Hvis). exists (_id v, p). split; [done|].
    apply list_elem_of_In, elem_of_find. by rewrite visible_to_spec.
Qed.

(** C6. The list route answers 200 with exactly the stored projects whose
    owner is the caller or whose collaborators contain the caller, each with
    its references populated. So a project that A owns and that has no
    collaborators is in A's list and in no other user's. *)
Theorem get_projects_exactly_visible (db : DB) :
  (∀ userId, get_projects db userId = respond 200 (Projects (listed db userId)))
  ∧ (∀ userId v,
       v ∈ listed db userId ↔
       ∃ p, projects db !! _id v = Some p ∧ v = populated db (_id v) p
            ∧ (owner p = Some userId ∨ userId ∈ collaborators p))
  ∧ (∀ a i p,
       projects db !! i = Some p → owner p = Some a → collaborators p = [] →
       populated db i p ∈ listed db a
       ∧ ∀ b v, b ≠ a → v ∈ listed db b → _id v ≠ i).
Proof.
  split; [done|]. split; [apply elem_of_listed|].
  intros a i p Hp Howner Hnone. split.
  - apply elem_of_listed. exists p. simpl. auto.
  - intros b v Hba Hv Hid. apply elem_of_listed in Hv as (q & Hq & _ & Hvis).
    rewrite Hid in Hq. assert (q = p) as -> by congruence.
    rewrite Howner, Hnone in Hvis. destruct Hvis as [[= ->]|Hin]; [done|].
    by apply not_elem_of_nil in Hin.
Qed.

(** C7. After a create that answered 201, the creator's list holds the new
    project with the name, description and technology of the request and
    with status "planning". *)
Theorem create_then_list_round_trip (db db' : DB) (userId : ObjectId) (body : Body)
    (newId : ObjectId) (now : Z) (r : Response)
    (name_ technology_ : string) (description_ : option string) :
  body !! "name" = Some (JStr name_) →
  body !! "description" = JStr <$> description_ →
  body !! "technology" = Some (JStr technology_) →
  post_projects db userId body newId now = (db', r) →
  statusCode r = 201 →
  ∃ v, v ∈ listed db' userId
       ∧ _id v = newId
       ∧ name (doc v) = Some name_
       ∧ description (doc v) = description_
       ∧ technology (doc v) = Some technology_
       ∧ status (doc v) = Some "planning"
       ∧ json r = OneProject (owner_populated db' newId (doc v)).
Proof.
  intros Hn Hd Ht Hpost Hcode.
  destruct (post_projects_created _ _ _ _ _ _ _ Hpost Hcode)
    as (p & Hnew & _ & _ & Hdb & Hr).
  apply new_Project_fields in Hnew as (En & Ed & Et & Es & Eo & _).
  rewrite Hn in En. rewrite Hd in Ed. rewrite Ht in Et. simpl in En, Et.
  injection En as En. injection Et as Et.
  assert (description p = description_) as Edesc.
  { destruct description_; simpl in Ed; by injection Ed as <-. }
  exists (populated db' newId p). split; [|by rewrite Hr].
  apply elem_of_listed. exists p. simpl. split; [|auto].
  rewrite Hdb. simpl. by rewrite lookup_insert_eq.
Qed.

(** ** Update and delete *)

Section Project_writes.
Context `{Platform}.

Lemma Object_assign_owner (i : ObjectId) (p p' : Project) (updates : Body) :
  Object_assign i p updates = Some p' →
  set_path castRef (owner p) (updates !! "owner") = Some (owner p').
Proof.
  unfold Object_assign. intros Hassign.
  destruct (keep_id i (updates !! "_id")); [|done].
  destruct (set_path castString (name p) (updates !! "name")); [|done].
  destruct (set_path castString (description p) (updates !! "description")); [|done].
  destruct (set_path castString (technology p) (updates !! "technology")); [|done].
  destruct (set_path castString (status p) (updates !! "status")); [|done].
  destruct (set_path castRef (owner p) (updates !! "owner")); [|done].
  destruct (set_path castRefs (collaborators p) (updates !! "collaborators")); [|done].
  destruct (set_path castDate (createdAt p) (updates !! "createdAt")); [|done].
  simpl in Hassign. by injection Hassign as <-.
Qed.

Lemma Object_assign_nothing (i : ObjectId) (p : Project) :
  Object_assign i p ∅ = Some p.
Proof. unfold Object_assign. rewrite !lookup_empty. by destruct p. Qed.

Lemma validate_touch (now : Z) (p : Project) : validate (touch now p) = validate p.
Proof. done. Qed.

(** An update either stores one reassigned document in place of the one it
    found, or leaves the database as it was. *)
Lemma put_project_db (db : DB) userId id updates now :
  (put_project db userId id updates now).1 = db
  ∨ ∃ i p assigned,
      castObjectId id = Some i ∧ projects db !! i = Some p
      ∧ visible_to userId p = true
      ∧ Object_assign i p updates = Some assigned
      ∧ (put_project db userId id updates now).1
        = with_projects db (<[i := touch now assigned]> (projects db)).
Proof.
  unfold put_project.
  destruct (castObjectId id) as [i|]; [|by left].
  destruct (findOne_by_id (projects db) i (visible_to userId)) as [p|] eqn:Hfind; [|by left].
  apply findOne_by_id_Some in Hfind as [Hp Hvis].
  destruct (Object_assign i p updates) as [assigned|] eqn:Hassign; [|by left].
  unfold save. destruct (validate (touch now assigned)); [|by left].
  right. by exists i, p, assigned.
Qed.

(** A delete either removes the document it found, which the caller owns, or
    leaves the database as it was and does not answer 200. *)
Lemma delete_project_db (db : DB) userId id :
  ((delete_project db userId id).1 = db
   ∧ statusCode (delete_project db userId id).2 ≠ 200)
  ∨ ∃ i p,
      castObjectId id = Some i ∧ projects db !! i = Some p ∧ owner p = Some userId
      ∧ delete_project db userId id
        = (with_projects db (delete i (projects db)),
           respond 200 (Message "Project deleted successfully")).
Proof.
  unfold delete_project.
  destruct (castObjectId id) as [i|]; [|by left].
  destruct (findOne_by_id (projects db) i (owned_by userId)) as [p|] eqn:Hfind; [|by left].
  apply findOne_by_id_Some in Hfind as [Hp Howned]. apply owned_by_spec in Howned.
  right. by exists i, p.
Qed.

(** C4. For a stored project and a caller who is one of its collaborators
    but not its owner: the delete route answers 404 and leaves the database
    as it was, while the update route lets the same caller through (it never
    answers 404, and an update that assigns nothing answers 200 and stores
    the project with a new [updatedAt]). A delete answers 200 only to the
    owner, and the project is then gone. *)
Theorem collaborator_updates_but_cannot_delete (db : DB) (userId : ObjectId) (id : string)
    (i : ObjectId) (p : Project) :
  castObjectId id = Some i →
  projects db !! i = Some p →
  validate p = true →
  userId ∈ collaborators p →
  owner p ≠ Some userId →
  delete_project db userId id
    = (db, respond 404 (Error "Project not found or insufficient permissions"))
  ∧ (∀ updates now, statusCode (put_project db userId id updates now).2 ≠ 404)
  ∧ (∀ now, put_project db userId id ∅ now
            = (with_projects db (<[i := touch now p]> (projects db)),
               respond 200 (OneProject
                 (populated (with_projects db (<[i := touch now p]> (projects db)))
                    i (touch now p)))))
  ∧ (∀ caller db' r,
       delete_project db caller id = (db', r) → statusCode r = 200 →
       owner p = Some caller ∧ projects db' !! i = None).
Proof.
  intros Hid Hp Hvalid Hcollab Hnot_owner.
  assert (findOne_by_id (projects db) i (visible_to userId) = Some p) as Hfind.
  { apply findOne_by_id_Some. split; [done|]. apply visible_to_spec. by right. }
  split; [|split; [|split]].
  - unfold delete_project. rewrite Hid.
    assert (findOne_by_id (projects db) i (owned_by userId) = None) as ->; [|done].
    apply findOne_by_id_None. intros d Hd. assert (d = p) as -> by congruence.
    unfold owned_by. by apply bool_decide_eq_false.
  - intros updates now. unfold put_project. rewrite Hid, Hfind.
    destruct (Object_assign i p updates) as [assigned|]; [|done].
    by destruct (save db i (touch now assigned)).
  - intros now. unfold put_project. rewrite Hid, Hfind, Object_assign_nothing.
    unfold save. by rewrite validate_touch, Hvalid.
  - intros caller db' r Hdelete Hok.
    destruct (delete_project_db db caller id) as [[_ Hcode]|(j & q & Hj & Hq & Howner & Hdel)].
    + by rewrite Hdelete in Hcode.
    + assert (j = i) as -> by congruence. split; [congruence|].
      rewrite Hdelete in Hdel. injection Hdel as -> _.
      simpl. apply lookup_delete_eq.
Qed.

(** *** The owner across a run *)

Lemma step_keeps_owner (db : DB) (op : Operation) (i : ObjectId) (p p' : Project) :
  patches_owner op = false →
  projects db !! i = Some p →
  projects (step db op) !! i = Some p' →
  owner p' = owner p.
Proof.
  intros Hpatch Hp Hp'. destruct op as [u body newId now|u id updates now|u id|u|e pw];
    simpl in *; [| | |congruence..].
  - destruct (post_projects_db db u body newId now) as [E|(q & _ & Hfree & E)];
      rewrite E in Hp'; [congruence|]. simpl in Hp'.
    destruct (decide (newId = i)) as [->|Hne]; [congruence|].
    rewrite lookup_insert_ne in Hp' by done. congruence.
  - destruct (put_project_db db u id updates now) as [E|(j & q & a & _ & Hq & _ & Ha & E)];
      rewrite E in Hp'; [congruence|]. simpl in Hp'.
    destruct (decide (j = i)) as [->|Hne].
    + rewrite lookup_insert_eq in Hp'. injection Hp' as <-. simpl.
      apply Object_assign_owner in Ha.
      apply bool_decide_eq_false in Hpatch.
      destruct (updates !! "owner") as [v|] eqn:Ev; [by destruct Hpatch|].
      simpl in Ha. congruence.
    + rewrite lookup_insert_ne in Hp' by done. congruence.
  - destruct (delete_project_db db u id) as [[E _]|(j & q & _ & _ & _ & E)];
      rewrite E in Hp'; [congruence|]. simpl in Hp'.
    apply lookup_delete_Some in Hp' as [_ Hp']. congruence.
Qed.

Lemma step_stays_absent (db : DB) (op : Operation) (i : ObjectId) :
  issues i op = false →
  projects db !! i = None →
  projects (step db op) !! i = None.
Proof.
  intros Hissue Hnone. destruct op as [u body newId now|u id updates now|u id|u|e pw];
    simpl in *; [| | |done..].
  - destruct (post_projects_db db u body newId now) as [E|(q & _ & _ & E)];
      rewrite E; [done|]. simpl.
    apply N.eqb_neq in Hissue. by rewrite lookup_insert_ne.
  - destruct (put_project_db db u id updates now) as [E|(j & q & a & _ & Hq & _ & _ & E)];
      rewrite E; [done|]. simpl.
    destruct (decide (j = i)) as [->|Hne]; [congruence|]. by rewrite lookup_insert_ne.
  - destruct (delete_project_db db u id) as [[E _]|(j & q & _ & _ & _ & E)];
      rewrite E; [done|]. simpl.
    apply lookup_delete_None. by right.
Qed.

Lemma run_stays_absent (ops : list Operation) (db : DB) (i : ObjectId) :
  Forall (λ op, issues i op = false) ops →
  projects db !! i = None →
  projects (run db ops) !! i = None.
Proof.
  revert db. induction ops as [|op ops IH]; intros db Hissue Hnone; [done|].
  apply Forall_cons in Hissue as [Hop Hops]. simpl.
  apply IH; [done|]. by apply step_stays_absent.
Qed.

Lemma run_keeps_owner (ops : list Operation) (db : DB) (i : ObjectId) (p p' : Project) :
  Forall (λ op, patches_owner op = false) ops →
  Forall (λ op, issues i op = false) ops →
  projects db !! i = Some p →
  projects (run db ops) !! i = Some p' →
  owner p' = owner p.
Proof.
  revert db p. induction ops as [|op ops IH]; intros db p Hpatch Hissue Hp Hp'.
  - simpl in Hp'. congruence.
  - apply Forall_cons in Hpatch as [Hop Hops].
    apply Forall_cons in Hissue as [Hiop Hiops]. simpl in Hp'.
    destruct (projects (step db op) !! i) as [q|] eqn:Hq.
    + rewrite (IH _ q Hops Hiops Hq Hp'). by eapply step_keeps_owner.
    + by rewrite (run_stays_absent ops _ i Hiops Hq) in Hp'.
Qed.

(** C1 (as the code has it). A project that a caller created has that caller
    as its owner for as long as it exists, through every run of requests in
    which no update carries an [owner] property (and in which the driver
    does not hand out the project's identifier again). *)
Theorem owner_set_at_creation_and_kept (db : DB) (userId : ObjectId) (body : Body)
    (newId : ObjectId) (now : Z) (ops : list Operation) (p' : Project) :
  statusCode (post_projects db userId body newId now).2 = 201 →
  Forall (λ op, patches_owner op = false) ops →
  Forall (λ op, issues newId op = false) ops →
  projects (run (post_projects db userId body newId now).1 ops) !! newId = Some p' →
  owner p' = Some userId.
Proof.
  intros Hcode Hpatch Hissue Hp'.
  destruct (post_projects db userId body newId now) as [db' r] eqn:Hpost.
  destruct (post_projects_created _ _ _ _ _ _ _ Hpost Hcode) as (p & Hnew & _ & _ & Hdb & _).
  apply new_Project_fields in Hnew as (_ & _ & _ & _ & Howner & _).
  rewrite <- Howner. apply (run_keeps_owner ops db' newId p p'); try done.
  rewrite Hdb. simpl. apply lookup_insert_eq.
Qed.

End Project_writes.

(** ** Login *)

Lemma findOne_by_email_None (coll : gmap ObjectId User) (e : string) :
  (∀ j v, coll !! j = Some v → email v ≠ e) → findOne_by_email coll e = None.
Proof.
  intros Hno. unfold findOne_by_email.
  destruct (find coll _) as [|[j v] rest] eqn:Hfind; [done|].
  assert ((j, v) ∈ find coll (λ u, String.eqb (email u) e)) as Hin.
  { rewrite Hfind. apply list_elem_of_here. }
  apply elem_of_find in Hin as [Hv Heq]. apply String.eqb_eq in Heq.
  by destruct (Hno j v Hv).
Qed.

Lemma findOne_by_email_Some (coll : gmap ObjectId User) (e : string) (j : ObjectId) (v : User) :
  coll !! j = Some v → email v = e →
  ∃ k u, findOne_by_email coll e = Some (k, u) ∧ coll !! k = Some u ∧ email u = e.
Proof.
  intros Hv He. unfold findOne_by_email.
  assert ((j, v) ∈ find coll (λ u, String.eqb (email u) e)) as Hin.
  { apply elem_of_find. split; [done|]. by apply String.eqb_eq. }
  destruct (find coll _) as [|[k u] rest] eqn:Hfind; [by apply not_elem_of_nil in Hin|].
  exists k, u. split; [done|].
  assert ((k, u) ∈ find coll (λ u, String.eqb (email u) e)) as Hhead.
  { rewrite Hfind. apply list_elem_of_here. }
  apply elem_of_find in Hhead as [Hu Heq]. by apply String.eqb_eq in Heq.
Qed.

Section Auth.
Context `{Platform}.

(** C5. A login with an email no user has and a login with a registered
    email whose password fails the hash comparison get the same response:
    401 with the message "Invalid credentials". *)
Theorem login_failures_indistinguishable (db : DB) (unknown_email password1 : string)
    (known_email password2 : string) (j : ObjectId) (user : User) :
  (∀ k u, users db !! k = Some u → email u ≠ unknown_email) →
  users db !! j = Some user →
  email user = known_email →
  (∀ k u, users db !! k = Some u → email u = known_email →
          bcrypt_compare password2 (password u) = false) →
  post_login db unknown_email password1 = respond 401 (Error "Invalid credentials")
  ∧ post_login db known_email password2 = respond 401 (Error "Invalid credentials")
  ∧ post_login db known_email password2 = post_login db unknown_email password1.
Proof.
  intros Hunknown Huser Hemail Hwrong.
  assert (post_login db unknown_email password1 = respond 401 (Error "Invalid credentials")) as E1.
  { unfold post_login. by rewrite findOne_by_email_None. }
  assert (post_login db known_email password2 = respond 401 (Error "Invalid credentials")) as E2.
  { unfold post_login.
    destruct (findOne_by_email_Some _ _ _ _ Huser Hemail) as (k & u & -> & Hu & Heu).
    by rewrite (Hwrong k u Hu Heu). }
  by rewrite E1, E2.
Qed.

End Auth.

(** ** Realtime relay *)

Lemma elem_of_socket_to_emit (rooms : Rooms) (socket : SocketId) (room event_ : string)
    (data : Body) (d : Delivery) :
  d ∈ socket_to_emit rooms socket room event_ data ↔
  recipient d ∈ members rooms room ∧ recipient d ≠ socket
  ∧ event d = event_ ∧ payload d = data.
Proof.
  unfold socket_to_emit. rewrite list_elem_of_fmap. split.
  - intros (r & -> & Hr). apply elem_of_elements in Hr. simpl. set_solver.
  - intros (Hin & Hne & He & Hd). exists (recipient d). split.
    + destruct d. simpl in *. by subst.
    + apply elem_of_elements. set_solver.
Qed.

Lemma members_socket_join (rooms : Rooms) (socket : SocketId) (room room' : string)
    (c : SocketId) :
  c ∈ members (socket_join rooms socket room) room' ↔
  (room' = room ∧ c = socket) ∨ c ∈ members rooms room'.
Proof.
  unfold socket_join, members. destruct (decide (room = room')) as [->|Hne].
  - rewrite lookup_insert_eq. simpl. set_solver.
  - rewrite lookup_insert_ne by done. naive_solver.
Qed.

Lemma project_room_inj (p1 p2 : option JSON) :
  project_room p1 = project_room p2 → template p1 = template p2.
Proof. unfold project_room. intros Heq. by simplify_eq/=. Qed.

(** Joining a room twice is joining it once. *)
Lemma socket_join_idempotent (rooms : Rooms) (socket : SocketId) (room : string) :
  socket_join (socket_join rooms socket room) socket room = socket_join rooms socket room.
Proof.
  assert (members (socket_join rooms socket room) room = {[socket]} ∪ members rooms room) as E.
  { unfold socket_join, members. by rewrite lookup_insert_eq. }
  unfold socket_join at 1. rewrite E. unfold socket_join.
  rewrite insert_insert_eq. f_equal. set_solver.
Qed.

(** After a disconnect the socket is in no room, so no update reaches it. *)
Lemma disconnected_receives_nothing (rooms : Rooms) (socket sender : SocketId)
    (data : Body) (d : Delivery) :
  d ∈ on_project_update (on_disconnect rooms socket) sender data → recipient d ≠ socket.
Proof.
  intros Hd Heq. apply elem_of_socket_to_emit in Hd as (Hin & _).
  unfold members, on_disconnect in Hin. rewrite lookup_fmap in Hin.
  destruct (rooms !! project_room (data !! "projectId")); simpl in Hin; set_solver.
Qed.

(** C8. A [project-update] from a socket is delivered, as one
    [project-updated] event carrying the same data, to exactly the sockets
    that are in the room of the data's project and are not the sender. So a
    socket that has joined project p1 gets the update another socket sends
    for p1, gets nothing from an update for a project p2 whose room it is
    not in, and never gets its own update back. *)
Theorem project_update_reaches_room_but_sender (rooms : Rooms) (sender : SocketId)
    (data : Body) :
  (∀ d, d ∈ on_project_update rooms sender data ↔
        recipient d ∈ members rooms (project_room (data !! "projectId"))
        ∧ recipient d ≠ sender
        ∧ event d = "project-updated" ∧ payload d = data)
  ∧ NoDup (recipient <$> on_project_update rooms sender data)
  ∧ (∀ c p1, c ≠ sender → data !! "projectId" = p1 →
       ∃ d, d ∈ on_project_update (on_join_project rooms c p1) sender data
            ∧ recipient d = c)
  ∧ (∀ c p1, template p1 ≠ template (data !! "projectId") →
       c ∉ members rooms (project_room (data !! "projectId")) →
       ∀ d, d ∈ on_project_update (on_join_project rooms c p1) sender data →
            recipient d ≠ c)
  ∧ (∀ d, d ∈ on_project_update rooms sender data → recipient d ≠ sender).
Proof.
  split; [|split; [|split; [|split]]].
  - intros d. apply elem_of_socket_to_emit.
  - unfold on_project_update, socket_to_emit. rewrite <- list_fmap_compose.
    simpl. rewrite list_fmap_id. apply NoDup_elements.
  - intros c p1 Hne <-.
    exists {| recipient := c; event := "project-updated"; payload := data |}.
    split; [|done]. apply elem_of_socket_to_emit. simpl.
    split; [|done]. apply members_socket_join. by left.
  - intros c p1 Hother Hout d Hd Hc.
    apply elem_of_socket_to_emit in Hd as (Hin & _). rewrite Hc in Hin.
    apply members_socket_join in Hin as [[Hroom _]|Hin]; [|done].
    apply project_room_inj in Hroom. by rewrite Hroom in Hother.
  - intros d Hd. by apply elem_of_socket_to_emit in Hd as (_ & Hne & _).
Qed.

(** * The properties on concrete requests *)

(** What the fixtures hold. *)
Lemma created_db_demo : projects created_db !! demo = Some demo_project.
Proof. vm_compute. reflexivity. Qed.

Lemma shared_db_demo : projects shared_db !! demo = Some shared_project.
Proof. vm_compute. reflexivity. Qed.

(** C1, refuted as stated: Alice creates [demo] and owns it; an update whose
    body is [{ owner: <Bob's id> }] answers 200 and the stored project then
    has Bob as owner. *)
Lemma update_reassigns_owner :
  statusCode (post_projects seed_db alice demo_body demo 1000).2 = 201
  ∧ owner <$> projects created_db !! demo = Some (Some alice)
  ∧ statusCode (@put_project fake_platform created_db alice demo_hex
                  {[ "owner" := JStr bob_hex ]} 2000).2 = 200
  ∧ owner <$> projects (@put_project fake_platform created_db alice demo_hex
                          {[ "owner" := JStr bob_hex ]} 2000).1 !! demo
    = Some (Some bob)
  ∧ alice ≠ bob.
Proof. vm_compute. repeat split; discriminate. Qed.

(** The same from a collaborator: Bob makes himself owner of Alice's
    project, and the owner-only delete then lets him through. *)
Example collaborator_takes_ownership :
  let taken := (@put_project fake_platform shared_db bob demo_hex
                  {[ "owner" := JStr bob_hex ]} 3000).1 in
  owner <$> projects taken !! demo = Some (Some bob)
  ∧ statusCode (delete_project shared_db bob demo_hex).2 = 404
  ∧ statusCode (delete_project taken bob demo_hex).2 = 200.
Proof. vm_compute. repeat split. Qed.

(** A run with a list, an update that sets the collaborators and a refused
    delete leaves Alice as owner. *)
Lemma owner_set_at_creation_and_kept_witness :
  owner shared_project = Some alice.
Proof.
  apply (@owner_set_at_creation_and_kept fake_platform seed_db alice demo_body demo 1000
           [ListVisible bob;
            Update alice demo_hex {[ "collaborators" := JArr [JStr bob_hex] ]} 2000;
            Delete bob demo_hex]
           shared_project).
  - vm_compute. reflexivity.
  - repeat constructor.
  - repeat constructor.
  - vm_compute. reflexivity.
Defined.

(** C2, refuted as stated: a create request without [name] answers 500, not
    400. *)
Lemma create_without_name_answers_500 :
  post_projects seed_db alice {[ "technology" := JStr "React" ]} demo 1000
    = (seed_db, respond 500 (Error "Internal server error"))
  ∧ statusCode (post_projects seed_db alice {[ "technology" := JStr "React" ]} demo 1000).2
    ≠ 400.
Proof. vm_compute. split; [reflexivity | discriminate]. Qed.

(** A create request without [technology]. *)
Lemma post_projects_missing_field_witness :
  post_projects seed_db alice {[ "name" := JStr "Demo" ]} demo 1000
    = (seed_db, respond 500 (Error "Internal server error")).
Proof.
  apply (post_projects_missing_field seed_db alice {[ "name" := JStr "Demo" ]} demo 1000).
  right. vm_compute. reflexivity.
Defined.

(** Bob, who has no access to [demo], updates it where it exists and where
    it does not. *)
Lemma put_project_not_found_uniform_witness :
  (@put_project fake_platform created_db bob demo_hex {[ "status" := JStr "deployed" ]} 3000).2
  = (@put_project fake_platform seed_db bob demo_hex ∅ 2000).2.
Proof.
  refine (proj2 (proj2 (@put_project_not_found_uniform fake_platform seed_db created_db bob
                          demo_hex demo demo_project ∅ {[ "status" := JStr "deployed" ]}
                          2000 3000 _ _ _ _ _))).
  - vm_compute. reflexivity.
  - vm_compute. reflexivity.
  - exact created_db_demo.
  - simpl. discriminate.
  - simpl. apply not_elem_of_nil.
Defined.

(** Bob, a collaborator on [demo], tries to delete it. *)
Lemma collaborator_updates_but_cannot_delete_witness :
  delete_project shared_db bob demo_hex
    = (shared_db, respond 404 (Error "Project not found or insufficient permissions")).
Proof.
  refine (proj1 (@collaborator_updates_but_cannot_delete fake_platform shared_db bob demo_hex
                   demo shared_project _ _ _ _ _)).
  - vm_compute. reflexivity.
  - exact shared_db_demo.
  - vm_compute. reflexivity.
  - simpl. apply list_elem_of_here.
  - simpl. discriminate.
Defined.

(** An unknown email against a wrong password for Alice. *)
Lemma login_failures_indistinguishable_witness :
  @post_login fake_platform seed_db "alice@x.com" "guess"
  = @post_login fake_platform seed_db "nobody@x.com" "pw".
Proof.
  refine (proj2 (proj2 (@login_failures_indistinguishable fake_platform seed_db
                          "nobody@x.com" "pw" "alice@x.com" "guess" alice
                          {| username := "alice"; email := "alice@x.com";
                             password := "hash:pw"; role := "user" |} _ _ _ _))).
  - intros k u Hu. simpl in Hu.
    apply lookup_insert_Some in Hu as [[_ <-]|[_ Hu]]; [discriminate|].
    apply lookup_singleton_Some in Hu as [_ <-]. discriminate.
  - vm_compute. reflexivity.
  - reflexivity.
  - intros k u Hu. simpl in Hu.
    apply lookup_insert_Some in Hu as [[_ <-]|[_ Hu]]; [reflexivity|].
    apply lookup_singleton_Some in Hu as [_ <-]. discriminate.
Defined.

(** Alice's create, then her list. *)
Lemma create_then_list_round_trip_witness :
  ∃ v, v ∈ listed created_db alice
       ∧ _id v = demo
       ∧ name (doc v) = Some "Demo"
       ∧ description (doc v) = None
       ∧ technology (doc v) = Some "React"
       ∧ status (doc v) = Some "planning"
       ∧ json (post_projects seed_db alice demo_body demo 1000).2
         = OneProject (owner_populated created_db demo (doc v)).
Proof.
  apply (create_then_list_round_trip seed_db created_db alice demo_body demo 1000
           (post_projects seed_db alice demo_body demo 1000).2 "Demo" "React" None).
  - vm_compute. reflexivity.
  - vm_compute. reflexivity.
  - vm_compute. reflexivity.
  - reflexivity.
  - vm_compute. reflexivity.
Defined.

(** The path parameter [demo] is not an ObjectId. *)
Lemma malformed_id_is_internal_error_witness :
  @put_project fake_platform created_db alice "demo" {[ "status" := JStr "deployed" ]} 2000
    = (created_db, respond 500 (Error "Internal server error"))
  ∧ delete_project created_db alice "demo"
    = (created_db, respond 500 (Error "Internal server error"))
  ∧ statusCode (@put_project fake_platform created_db alice "demo"
                  {[ "status" := JStr "deployed" ]} 2000).2 ≠ 404
  ∧ statusCode (delete_project created_db alice "demo").2 ≠ 404.
Proof.
  apply (@malformed_id_is_internal_error fake_platform created_db alice "demo"
           {[ "status" := JStr "deployed" ]} 2000).
  vm_compute. reflexivity.
Defined.

(** Bob sends [crowded_body]: the create is answered 201 and the stored
    project has status "planning", Bob as owner and no collaborators. *)
Lemma post_projects_reads_three_fields_witness :
  post_projects seed_db bob crowded_body demo 1000
  = post_projects seed_db bob demo_body demo 1000
  ∧ post_projects seed_db bob crowded_body demo 1000
    = (with_projects seed_db
         (<[demo := {| name := Some "Demo"; description := None;
                       technology := Some "React"; status := Some "planning";
                       owner := Some bob; collaborators := [];
                       createdAt := Some 1000%Z; updatedAt := Some 1000%Z |}]>
            (projects seed_db)),
       respond 201
         (OneProject
            (owner_populated
               (with_projects seed_db
                  (<[demo := {| name := Some "Demo"; description := None;
                                technology := Some "React"; status := Some "planning";
                                owner := Some bob; collaborators := [];
                                createdAt := Some 1000%Z; updatedAt := Some 1000%Z |}]>
                     (projects seed_db)))
               demo
               {| name := Some "Demo"; description := None;
                  technology := Some "React"; status := Some "planning";
                  owner := Some bob; collaborators := [];
                  createdAt := Some 1000%Z; updatedAt := Some 1000%Z |}))).
Proof.
  assert (crowded_body !! "name" = demo_body !! "name") as Hn by (vm_compute; reflexivity).
  assert (crowded_body !! "description" = demo_body !! "description") as Hd
    by (vm_compute; reflexivity).
  assert (crowded_body !! "technology" = demo_body !! "technology") as Ht
    by (vm_compute; reflexivity).
  destruct (post_projects_reads_three_fields seed_db bob demo_body crowded_body demo 1000
              Hn Hd Ht) as (Hsame & _ & Hcreated).
  split; [exact Hsame|].
  refine (Hcreated "Demo" "React" None _ _ _ _ _ _).
  - vm_compute. reflexivity.
  - discriminate.
  - vm_compute. reflexivity.
  - discriminate.
  - vm_compute. reflexivity.
  - reflexivity.
Defined.

(** * Further properties of the server *)

(** ** The token check *)

Lemma split_space_word (a : string) : space_free a = true → split_space a = [a].
Proof.
  induction a as [|c a IH]; [done|]. simpl. intros Hfree.
  apply andb_true_iff in Hfree as [Hc Ha]. apply negb_true_iff in Hc.
  rewrite Hc, (IH Ha). done.
Qed.

Lemma split_space_app (a b : string) :
  space_free a = true → split_space (a ++ " " ++ b) = a :: split_space b.
Proof.
  induction a as [|c a IH]; [done|]. simpl. intros Hfree.
  apply andb_true_iff in Hfree as [Hc Ha]. apply negb_true_iff in Hc.
  rewrite Hc. simpl in IH. rewrite (IH Ha). done.
Qed.

Lemma append_space_not_empty (a b : string) : String.eqb (a ++ " " ++ b) EmptyString = false.
Proof. by destruct a. Qed.

Lemma token_of_second_word (scheme token : string) :
  space_free scheme = true → space_free token = true →
  token_of (Some (scheme ++ " " ++ token)) = Some token.
Proof.
  intros Hs Ht. unfold token_of. rewrite append_space_not_empty.
  by rewrite (split_space_app _ _ Hs), (split_space_word _ Ht).
Qed.

Section Gateway.
Context `{Platform} `{Verifier}.

(** X1. A request with no Authorization header, or with one that has no
    second space-separated piece (a single word, or two spaces after the
    scheme), is answered 401 "Access token required" by the middleware on
    every protected route: the handler does not run and the database is as
    it was. *)
Theorem missing_token_is_401 (db : DB) (authHeader : option string) :
  authHeader = None
  ∨ (∃ word, authHeader = Some word ∧ space_free word = true)
  ∨ (∃ scheme rest, authHeader = Some (scheme ++ "  " ++ rest) ∧ space_free scheme = true) →
  authenticateToken authHeader = Answered (respond 401 (Error "Access token required"))
  ∧ route_get_projects db authHeader
    = (db, respond 401 (Error "Access token required"))
  ∧ (∀ body newId now,
       route_post_projects db authHeader body newId now
       = (db, respond 401 (Error "Access token required")))
  ∧ (∀ id updates now,
       route_put_project db authHeader id updates now
       = (db, respond 401 (Error "Access token required")))
  ∧ (∀ id, route_delete_project db authHeader id
           = (db, respond 401 (Error "Access token required"))).
Proof.
  intros Hheader.
  assert (authenticateToken authHeader
          = Answered (respond 401 (Error "Access token required"))) as Hcheck.
  { destruct Hheader as [->|[(word & -> & Hword)|(scheme & rest & -> & Hscheme)]]; [done|..].
    - unfold authenticateToken, token_of.
      destruct (String.eqb word EmptyString) eqn:Hempty.
      + simpl. by rewrite Hempty.
      + by rewrite (split_space_word _ Hword).
    - unfold authenticateToken, token_of.
      change (scheme ++ "  " ++ rest) with (scheme ++ " " ++ (" " ++ rest)).
      rewrite append_space_not_empty, (split_space_app _ _ Hscheme). done. }
  unfold route_get_projects, route_post_projects, route_put_project,
    route_delete_project, protected. rewrite Hcheck. done.
Qed.

(** X2. The middleware reads the second space-separated piece of the header
    and nothing else: the scheme word is not compared with "Bearer" and
    whatever follows the token is dropped. *)
Theorem scheme_and_trailer_ignored (scheme token trailer : string) :
  space_free scheme = true →
  space_free token = true →
  authenticateToken (Some (scheme ++ " " ++ token))
    = authenticateToken (Some ("Bearer " ++ token))
  ∧ authenticateToken (Some (scheme ++ " " ++ token ++ " " ++ trailer))
    = authenticateToken (Some ("Bearer " ++ token)).
Proof.
  intros Hscheme Htoken.
  assert (token_of (Some ("Bearer " ++ token)) = Some token) as Hbearer.
  { by apply (token_of_second_word "Bearer"). }
  split.
  - unfold authenticateToken. by rewrite Hbearer, token_of_second_word.
  - assert (token_of (Some (scheme ++ " " ++ token ++ " " ++ trailer)) = Some token) as Hlong.
    { unfold token_of. rewrite append_space_not_empty, (split_space_app _ _ Hscheme).
      by rewrite (split_space_app _ _ Htoken). }
    unfold authenticateToken. by rewrite Hbearer, Hlong.
Qed.

(** X3. A token that [jwt.verify] refuses is answered 403 "Invalid token" on
    every protected route, and the database is as it was; a token it accepts
    hands the route to the handler with the payload's user. *)
Theorem refused_token_is_403 (db : DB) (scheme token : string)
    (handler : ObjectId → DB * Response) :
  space_free scheme = true →
  space_free token = true →
  token ≠ EmptyString →
  (jwt_verify token = None →
   protected db (Some (scheme ++ " " ++ token)) handler
     = (db, respond 403 (Error "Invalid token")))
  ∧ (∀ user userId, jwt_verify token = Some user →
       castObjectId (claim_userId user) = Some userId →
       protected db (Some (scheme ++ " " ++ token)) handler = handler userId).
Proof.
  intros Hscheme Htoken Hnonempty.
  assert (String.eqb token EmptyString = false) as Hne by by apply String.eqb_neq.
  unfold protected, authenticateToken. rewrite (token_of_second_word _ _ Hscheme Htoken).
  simpl. rewrite Hne. split.
  - by intros ->.
  - intros user userId -> ->. done.
Qed.

End Gateway.

(** ** Register and login *)

Lemma head_find_None {A} (coll : gmap ObjectId A) (flt : A → bool) :
  head (find coll flt) = None ↔ ∀ i d, coll !! i = Some d → flt d = false.
Proof.
  rewrite head_None. split.
  - intros Hnil i d Hd. destruct (flt d) eqn:Hflt; [|done].
    assert ((i, d) ∈ find coll flt) as Hin by by apply elem_of_find.
    rewrite Hnil in Hin. by apply not_elem_of_nil in Hin.
  - intros Hnone. destruct (find coll flt) as [|[i d] rest] eqn:Hfind; [done|].
    assert ((i, d) ∈ find coll flt) as Hin by (rewrite Hfind; apply list_elem_of_here).
    apply elem_of_find in Hin as [Hd Hflt]. by rewrite (Hnone i d Hd) in Hflt.
Qed.

Lemma head_find_Some {A} (coll : gmap ObjectId A) (flt : A → bool) i d :
  head (find coll flt) = Some (i, d) → coll !! i = Some d ∧ flt d = true.
Proof.
  intros Hhead. apply head_Some in Hhead as [rest Hfind].
  apply elem_of_find. rewrite Hfind. apply list_elem_of_here.
Qed.

Lemma same_email_or_username_spec (email_ username_ : string) (u : User) :
  same_email_or_username email_ username_ u = true ↔ email u = email_ ∨ username u = username_.
Proof. unfold same_email_or_username. by rewrite orb_true_iff, !String.eqb_eq. Qed.

Lemma unique_email_lookup (db : DB) (e : string) (i : ObjectId) (u : User) :
  unique_users db → users db !! i = Some u → email u = e →
  findOne_by_email (users db) e = Some (i, u).
Proof.
  intros Huniq Hu He.
  destruct (findOne_by_email_Some _ _ _ _ Hu He) as (k & v & -> & Hv & Hev).
  assert (k = i) as ->. { apply (Huniq k i v u Hv Hu). left. congruence. }
  congruence.
Qed.

Section Accounts.
Context `{Platform} `{Hasher}.

(** What a 201 from the register route means. *)
Lemma post_register_created (db db' : DB) username_ email_ password_ salt newId r :
  post_register db username_ email_ password_ salt newId = (db', r) →
  statusCode r = 201 →
  let user := {| username := username_; email := email_;
                 password := bcrypt_hash password_ 12 salt; role := "user" |} in
  (∀ i u, users db !! i = Some u → email u ≠ email_ ∧ username u ≠ username_)
  ∧ users db !! newId = None
  ∧ validate_user user = true
  ∧ db' = {| users := <[newId := user]> (users db); projects := projects db |}
  ∧ r = respond 201 (Session "User created successfully" (jwt_sign newId username_)
                       {| pu_id := newId; pu_username := username_;
                          pu_email := email_; pu_role := "user" |}).
Proof.
  unfold post_register. intros Hreg Hcode.
  destruct (head (find (users db) _)) as [found|] eqn:Hhead;
    [by injection Hreg as <- <-|].
  unfold save_new_user in Hreg.
  destruct (validate_user _) eqn:Hvalid; [|by injection Hreg as <- <-].
  destruct (users db !! newId) eqn:Hfree; [by injection Hreg as <- <-|].
  injection Hreg as <- <-. simpl. split; [|done].
  intros i u Hu. pose proof (proj1 (head_find_None _ _) Hhead i u Hu) as Hno.
  split; intros Heq; apply not_true_iff_false in Hno; apply Hno;
    apply same_email_or_username_spec; auto.
Qed.

(** X4. Registering with an email or a username that a stored user already
    has is answered 400 "User already exists" and stores nothing, whatever
    the other fields are. *)
Theorem register_conflict_is_400 (db : DB) (username_ email_ password_ salt : string)
    (newId i : ObjectId) (u : User) :
  users db !! i = Some u →
  email u = email_ ∨ username u = username_ →
  post_register db username_ email_ password_ salt newId
    = (db, respond 400 (Error "User already exists")).
Proof.
  intros Hu Hsame. unfold post_register.
  destruct (head (find (users db) _)) as [found|] eqn:Hhead; [done|].
  pose proof (proj1 (head_find_None _ _) Hhead i u Hu) as Hno.
  apply not_true_iff_false in Hno. destruct Hno. by apply same_email_or_username_spec.
Qed.

(** X5. A register that answered 201 stored exactly one new user, with role
    "user" and the bcrypt hash (12 rounds) of the password, left every other
    user and every project as they were, and answered with the public view
    of that user. *)
Theorem register_stores_one_user (db db' : DB) (username_ email_ password_ salt : string)
    (newId : ObjectId) (r : Response) :
  post_register db username_ email_ password_ salt newId = (db', r) →
  statusCode r = 201 →
  users db !! newId = None
  ∧ users db' !! newId
    = Some {| username := username_; email := email_;
              password := bcrypt_hash password_ 12 salt; role := "user" |}
  ∧ (∀ j, j ≠ newId → users db' !! j = users db !! j)
  ∧ projects db' = projects db
  ∧ json r = Session "User created successfully" (jwt_sign newId username_)
               {| pu_id := newId; pu_username := username_;
                  pu_email := email_; pu_role := "user" |}.
Proof.
  intros Hreg Hcode.
  destruct (post_register_created _ _ _ _ _ _ _ _ Hreg Hcode) as (_ & Hfree & _ & -> & ->).
  simpl. split; [done|]. split; [apply lookup_insert_eq|].
  split; [|done]. intros j Hj. by apply lookup_insert_ne.
Qed.

(** X6. Register keeps emails and usernames unique: if no two stored users
    share an email or a username before the request, none do after it. *)
Theorem register_keeps_users_unique (db : DB) (username_ email_ password_ salt : string)
    (newId : ObjectId) :
  unique_users db →
  unique_users (post_register db username_ email_ password_ salt newId).1.
Proof.
  intros Huniq.
  destruct (post_register db username_ email_ password_ salt newId) as [db' r] eqn:Hreg.
  destruct (decide (statusCode r = 201)) as [Hcode|Hcode].
  - destruct (post_register_created _ _ _ _ _ _ _ _ Hreg Hcode) as (Hno & Hfree & _ & -> & _).
    simpl. intros i j u v Hu Hv Hsame. simpl in Hu, Hv.
    destruct (decide (i = newId)) as [->|Hi], (decide (j = newId)) as [->|Hj]; [done|..].
    + rewrite lookup_insert_eq in Hu. rewrite lookup_insert_ne in Hv by done.
      injection Hu as <-. simpl in Hsame. destruct (Hno j v Hv) as [He Hn].
      destruct Hsame as [E|E]; by rewrite E in *.
    + rewrite lookup_insert_eq in Hv. rewrite lookup_insert_ne in Hu by done.
      injection Hv as <-. simpl in Hsame. destruct (Hno i u Hu) as [He Hn].
      destruct Hsame as [E|E]; by rewrite <- E in *.
    + rewrite lookup_insert_ne in Hu, Hv by done. by apply (Huniq i j u v).
  - assert (db' = db) as ->; [|done].
    unfold post_register in Hreg.
    destruct (head (find (users db) _)); [by injection Hreg as <- _|].
    destruct (save_new_user db newId _); [|by injection Hreg as <- _].
    injection Hreg as _ <-. by destruct Hcode.
Qed.

(** X7. Register, then login: after a register that answered 201, a login
    with the same email and password answers 200 with the same public view
    and a token for the same user, provided [bcrypt.compare] accepts a
    password against its own hash. *)
Theorem register_then_login (db db' : DB) (username_ email_ password_ salt : string)
    (newId : ObjectId) (r : Response) :
  bcrypt_compare password_ (bcrypt_hash password_ 12 salt) = true →
  post_register db username_ email_ password_ salt newId = (db', r) →
  statusCode r = 201 →
  post_login db' email_ password_
    = respond 200 (Session "Login successful" (jwt_sign newId username_)
                     {| pu_id := newId; pu_username := username_;
                        pu_email := email_; pu_role := "user" |}).
Proof.
  intros Hcompare Hreg Hcode.
  destruct (post_register_created _ _ _ _ _ _ _ _ Hreg Hcode) as (Hno & Hfree & _ & -> & _).
  set (user := {| username := username_; email := email_;
                  password := bcrypt_hash password_ 12 salt; role := "user" |}).
  assert (findOne_by_email (<[newId := user]> (users db)) email_ = Some (newId, user)) as Hfind.
  { destruct (findOne_by_email_Some (<[newId := user]> (users db)) email_ newId user)
      as (k & u & -> & Hu & Heu); [apply lookup_insert_eq|done|].
    destruct (decide (k = newId)) as [->|Hk].
    - rewrite lookup_insert_eq in Hu. by injection Hu as <-.
    - rewrite lookup_insert_ne in Hu by done. by destruct (Hno k u Hu). }
  unfold post_login. simpl. rewrite Hfind. simpl. by rewrite Hcompare.
Qed.

(** X8. Registering the same email a second time: once a register has
    answered 201, any later register with that email (or that username) is
    answered 400 and changes nothing. *)
Theorem register_twice_is_400 (db db' : DB) (username_ email_ password_ salt : string)
    (newId : ObjectId) (r : Response)
    (username2 email2 password2 salt2 : string) (newId2 : ObjectId) :
  post_register db username_ email_ password_ salt newId = (db', r) →
  statusCode r = 201 →
  email2 = email_ ∨ username2 = username_ →
  post_register db' username2 email2 password2 salt2 newId2
    = (db', respond 400 (Error "User already exists")).
Proof.
  intros Hreg Hcode Hsame.
  destruct (post_register_created _ _ _ _ _ _ _ _ Hreg Hcode) as (_ & _ & _ & -> & _).
  unfold post_register. simpl.
  destruct (head (find (<[newId := _]> (users db)) _)) as [found|] eqn:Hhead; [done|].
  pose proof (proj1 (head_find_None _ _) Hhead newId _ (lookup_insert_eq _ _ _)) as Hno.
  apply not_true_iff_false in Hno. destruct Hno.
  apply same_email_or_username_spec. simpl. destruct Hsame as [->| ->]; auto.
Qed.

(** X9. The login route for a string email, with unique emails. When no
    stored user has the email the answer is 401 "Invalid credentials"
    whatever the password is, even when it is missing. When a stored user
    has it and the password is a string, the answer is 200, with that user's
    id, username, email and role and a token signed for that user, if
    [bcrypt.compare] accepts the password against the stored hash, and the
    same 401 if it does not. When a stored user has it and the password is
    missing or not a string, [bcrypt.compare] rejects and the answer is 500
    "Internal server error". No login writes to the database. *)
Theorem login_outcomes (db : DB) (email_ : string) :
  unique_users db →
  ((∀ i u, users db !! i = Some u → email u ≠ email_) →
   ∀ password_, post_login_body db email_ password_
                = respond 401 (Error "Invalid credentials"))
  ∧ (∀ i u, users db !! i = Some u → email u = email_ →
       (∀ pw, post_login_body db email_ (Some (JStr pw))
              = if bcrypt_compare pw (password u)
                then respond 200 (Session "Login successful" (jwt_sign i (username u))
                                    {| pu_id := i; pu_username := username u;
                                       pu_email := email u; pu_role := role u |})
                else respond 401 (Error "Invalid credentials"))
       ∧ (∀ password_, (∀ pw, password_ ≠ Some (JStr pw)) →
            post_login_body db email_ password_
            = respond 500 (Error "Internal server error")))
  ∧ (∀ pw, post_login_body db email_ (Some (JStr pw)) = post_login db email_ pw).
Proof.
  intros Huniq. split; [|split].
  - intros Hnone password_. unfold post_login_body.
    by rewrite (findOne_by_email_None _ _ Hnone).
  - intros i u Hu He. split.
    + intros pw. unfold post_login_body.
      by rewrite (unique_email_lookup db email_ i u Huniq Hu He).
    + intros password_ Hnot. unfold post_login_body.
      rewrite (unique_email_lookup db email_ i u Huniq Hu He).
      destruct password_ as [[| | |pw| |]|]; try done. by destruct (Hnot pw).
  - intros pw. unfold post_login_body, post_login.
    by destruct (findOne_by_email (users db) email_) as [[i u]|].
Qed.

End Accounts.

(** ** Statistics *)

Lemma group_count_lookup (values : list (option string)) (k : option string) :
  group_count values !! k
  = match length (List.filter (λ v, bool_decide (v = k)) values) with
    | 0 => None
    | S n => Some (S n)
    end.
Proof.
  induction values as [|v values IH]; [done|]. simpl.
  destruct (decide (v = k)) as [->|Hne].
  - rewrite lookup_insert_eq, bool_decide_eq_true_2 by done. simpl.
    rewrite IH. by destruct (length _).
  - rewrite lookup_insert_ne, bool_decide_eq_false_2 by done. apply IH.
Qed.

Lemma group_count_total (values : list (option string)) :
  sum_list_with snd (map_to_list (group_count values)) = length values.
Proof.
  induction values as [|v values IH]; [done|]. simpl.
  destruct (group_count values !! v) as [n|] eqn:Hv; simpl.
  - rewrite <- IH, <- (map_to_list_delete _ v n Hv).
    rewrite <- (insert_delete_eq (group_count values) v (S n)).
    rewrite map_to_list_insert by apply lookup_delete_eq. done.
  - rewrite map_to_list_insert by done. simpl. by rewrite IH.
Qed.

Lemma filter_map_length {A B} (f : A → B) (P : B → bool) (l : list A) :
  length (List.filter P (List.map f l)) = length (List.filter (λ x, P (f x)) l).
Proof.
  induction l as [|x l IH]; [done|]. simpl. destruct (P (f x)); simpl; by rewrite IH.
Qed.

Lemma elem_of_aggregate_by (path : Project → option string) (db : DB) (userId : ObjectId)
    (k : option string) (n : nat) :
  (k, n) ∈ aggregate_by path db userId ↔
  (0 < n)%nat ∧ n = length (List.filter (λ d, bool_decide (path d.2 = k))
                        (find (projects db) (visible_to userId))).
Proof.
  unfold aggregate_by. rewrite elem_of_map_to_list, group_count_lookup, filter_map_length.
  destruct (length _) as [|m]; split.
  - done.
  - intros [Hpos ->]. lia.
  - intros [= <-]. split; [lia|done].
  - by intros [_ ->].
Qed.

(** X10. In the statistics, each [projectsByStatus] entry (and each
    [projectsByTechnology] entry) is a value that at least one of the
    caller's visible projects has on that path, with the number of visible
    projects that have it; no value appears twice and none with count 0. *)
Theorem stats_groups_count_visible_projects (db : DB) (userId : ObjectId) :
  (∀ k n, (k, n) ∈ projectsByStatus (get_stats db userId) ↔
          (0 < n)%nat ∧ n = length (List.filter (λ d, bool_decide (status d.2 = k))
                                (find (projects db) (visible_to userId))))
  ∧ (∀ k n, (k, n) ∈ projectsByTechnology (get_stats db userId) ↔
            (0 < n)%nat ∧ n = length (List.filter (λ d, bool_decide (technology d.2 = k))
                                  (find (projects db) (visible_to userId))))
  ∧ NoDup (projectsByStatus (get_stats db userId)).*1
  ∧ NoDup (projectsByTechnology (get_stats db userId)).*1.
Proof.
  split; [|split; [|split]].
  - apply elem_of_aggregate_by.
  - apply elem_of_aggregate_by.
  - apply NoDup_fst_map_to_list.
  - apply NoDup_fst_map_to_list.
Qed.

(** X11. Each number of a statistics response is exact for the state of
    the database that its own query read: the counts of the status groups
    sum to the number of projects the caller could see when the status
    aggregation ran, likewise for the technology groups, and [userProjects]
    is the length of the caller's project list, and at most the number of
    projects, at the time of its count. When no write lands between the five
    queries the numbers of the response therefore add up: both sums equal
    [userProjects], which is at most [projectCount]. *)
Theorem stats_add_up (at_userCount at_projectCount at_userProjects at_byStatus
    at_byTechnology : DB) (userId : ObjectId) :
  let stats := get_stats_over at_userCount at_projectCount at_userProjects at_byStatus
                 at_byTechnology userId in
  sum_list_with snd (projectsByStatus stats) = length (listed at_byStatus userId)
  ∧ sum_list_with snd (projectsByTechnology stats) = length (listed at_byTechnology userId)
  ∧ userProjects stats = length (listed at_userProjects userId)
  ∧ (userProjects stats ≤ size (projects at_userProjects))%nat
  ∧ (∀ db, sum_list_with snd (projectsByStatus (get_stats db userId))
           = userProjects (get_stats db userId)
           ∧ sum_list_with snd (projectsByTechnology (get_stats db userId))
             = userProjects (get_stats db userId)
           ∧ (userProjects (get_stats db userId) ≤ projectCount (get_stats db userId))%nat).
Proof.
  assert (∀ db, length (listed db userId)
                = length (find (projects db) (visible_to userId))) as Hlisted.
  { intros db. unfold listed, get_projects. simpl. by rewrite length_map. }
  assert (∀ db, (length (find (projects db) (visible_to userId))
                 ≤ size (projects db))%nat) as Hle.
  { intros db. unfold find. rewrite <- length_map_to_list. apply filter_length_le. }
  simpl. unfold aggregate_by. rewrite !group_count_total, !length_map, !Hlisted.
  split; [done|]. split; [done|]. split; [done|]. split; [apply Hle|].
  intros db. unfold get_stats. simpl. unfold aggregate_by.
  rewrite !group_count_total, !length_map. split; [done|]. split; [done|apply Hle].
Qed.

(** With a create between the count of all projects and the count of the
    caller's, one response reports more projects of the caller than
    projects. *)
Example stats_read_skew :
  projectCount (get_stats_over seed_db seed_db created_db created_db created_db alice) = 0
  ∧ userProjects (get_stats_over seed_db seed_db created_db created_db created_db alice) = 1.
Proof. vm_compute. split; reflexivity. Qed.

(** ** The project collection across requests *)

Section Project_store.
Context `{Platform}.

Lemma Object_assign_paths (i : ObjectId) (p p' : Project) (updates : Body) :
  Object_assign i p updates = Some p' →
  set_path castString (name p) (updates !! "name") = Some (name p')
  ∧ set_path castString (description p) (updates !! "description") = Some (description p')
  ∧ set_path castString (technology p) (updates !! "technology") = Some (technology p')
  ∧ set_path castString (status p) (updates !! "status") = Some (status p')
  ∧ set_path castRef (owner p) (updates !! "owner") = Some (owner p')
  ∧ set_path castRefs (collaborators p) (updates !! "collaborators") = Some (collaborators p')
  ∧ set_path castDate (createdAt p) (updates !! "createdAt") = Some (createdAt p')
  ∧ updatedAt p' = updatedAt p.
Proof.
  unfold Object_assign. intros Hassign.
  destruct (keep_id i (updates !! "_id")); [|done].
  destruct (set_path castString (name p) (updates !! "name")); [|done].
  destruct (set_path castString (description p) (updates !! "description")); [|done].
  destruct (set_path castString (technology p) (updates !! "technology")); [|done].
  destruct (set_path castString (status p) (updates !! "status")); [|done].
  destruct (set_path castRef (owner p) (updates !! "owner")); [|done].
  destruct (set_path castRefs (collaborators p) (updates !! "collaborators")); [|done].
  destruct (set_path castDate (createdAt p) (updates !! "createdAt")); [|done].
  simpl in Hassign. by injection Hassign as <-.
Qed.

Lemma set_path_absent {A} (cast : JSON → option A) (old new : A) (x : option JSON) :
  set_path cast old x = Some new → x = None → new = old.
Proof. intros Hset ->. simpl in Hset. congruence. Qed.

(** What a 200 from the update route means. *)
Lemma put_project_ok (db db' : DB) userId id updates now r :
  put_project db userId id updates now = (db', r) →
  statusCode r = 200 →
  ∃ i p assigned,
    castObjectId id = Some i ∧ projects db !! i = Some p
    ∧ visible_to userId p = true
    ∧ Object_assign i p updates = Some assigned
    ∧ validate (touch now assigned) = true
    ∧ db' = with_projects db (<[i := touch now assigned]> (projects db))
    ∧ r = respond 200 (OneProject (populated db' i (touch now assigned))).
Proof.
  unfold put_project. intros Hput Hcode.
  destruct (castObjectId id) as [i|]; [|by injection Hput as <- <-].
  destruct (findOne_by_id (projects db) i (visible_to userId)) as [p|] eqn:Hfind;
    [|by injection Hput as <- <-].
  apply findOne_by_id_Some in Hfind as [Hp Hvis].
  destruct (Object_assign i p updates) as [assigned|] eqn:Hassign;
    [|by injection Hput as <- <-].
  unfold save in Hput. destruct (validate (touch now assigned)) eqn:Hvalid;
    [|by injection Hput as <- <-].
  injection Hput as <- <-. by exists i, p, assigned.
Qed.

Lemma post_projects_db_valid (db : DB) userId body newId now :
  (post_projects db userId body newId now).1 = db
  ∨ ∃ p, validate p = true
         ∧ (post_projects db userId body newId now).1
           = with_projects db (<[newId := p]> (projects db)).
Proof.
  unfold post_projects.
  destruct (new_Project body userId now) as [p|]; [|by left].
  destruct (save_new db newId p) as [db1|] eqn:Hsave; [|by left].
  apply save_new_Some in Hsave as (Hv & _ & ->). right. by exists p.
Qed.

Lemma put_project_db_valid (db : DB) userId id updates now :
  (put_project db userId id updates now).1 = db
  ∨ ∃ i p, validate p = true
           ∧ (put_project db userId id updates now).1
             = with_projects db (<[i := p]> (projects db)).
Proof.
  unfold put_project.
  destruct (castObjectId id) as [i|]; [|by left].
  destruct (findOne_by_id (projects db) i (visible_to userId)) as [p|]; [|by left].
  destruct (Object_assign i p updates) as [assigned|]; [|by left].
  unfold save. destruct (validate (touch now assigned)) eqn:Hv; [|by left].
  right. by exists i, (touch now assigned).
Qed.

(** X12. Every stored project passes the schema's validators (name and
    technology non-empty, status unset or one of the four values, owner set)
    after any request if it did before: no route stores a document that
    [save()] would refuse. *)
Theorem requests_keep_projects_valid (db : DB) (ops : list Operation) :
  valid_projects db → valid_projects (run db ops).
Proof.
  revert db. induction ops as [|op ops IH]; intros db Hvalid; [done|].
  simpl. apply IH. clear IH. intros j q Hq.
  destruct op as [u body newId now|u id updates now|u id|u|e pw]; simpl in Hq;
    [| | |by eapply Hvalid..].
  - destruct (post_projects_db_valid db u body newId now) as [E|(p & Hv & E)];
      rewrite E in Hq; [by eapply Hvalid|]. simpl in Hq.
    apply lookup_insert_Some in Hq as [[_ <-]|[_ Hq]]; [done|by eapply Hvalid].
  - destruct (put_project_db_valid db u id updates now) as [E|(i & p & Hv & E)];
      rewrite E in Hq; [by eapply Hvalid|]. simpl in Hq.
    apply lookup_insert_Some in Hq as [[_ <-]|[_ Hq]]; [done|by eapply Hvalid].
  - destruct (delete_project_db db u id) as [[E _]|(i & p & _ & _ & _ & E)];
      rewrite E in Hq; [by eapply Hvalid|]. simpl in Hq.
    apply lookup_delete_Some in Hq as [_ Hq]. by eapply Hvalid.
Qed.

(** X13. No project route writes to the users collection: after any run of
    create, update, delete, list and login requests the stored users are
    the same. *)
Theorem requests_never_touch_users (db : DB) (ops : list Operation) :
  users (run db ops) = users db.
Proof.
  revert db. induction ops as [|op ops IH]; intros db; [done|].
  simpl. rewrite IH. clear IH.
  destruct op as [u body newId now|u id updates now|u id|u|e pw]; simpl; [| | |done..].
  - destruct (post_projects_db db u body newId now) as [E|(p & _ & _ & E)]; by rewrite E.
  - destruct (put_project_db db u id updates now) as [E|(i & p & a & _ & _ & _ & _ & E)];
      by rewrite E.
  - destruct (delete_project_db db u id) as [[E _]|(i & p & _ & _ & _ & E)]; by rewrite E.
Qed.

(** X14. For a body that names schema paths only (no [_id], no other key):
    an update that answered 200 replaced exactly the addressed project,
    which the caller owns or collaborates on: every path that the body does
    not name keeps its value, [updatedAt] is the time of the request
    whatever the body says, every other project is as it was, and the
    response carries the stored document. *)
Theorem update_changes_only_named_paths (db db' : DB) (userId : ObjectId) (id : string)
    (updates : Body) (now : Z) (r : Response) :
  names_only_schema_paths updates = true →
  put_project db userId id updates now = (db', r) →
  statusCode r = 200 →
  ∃ i p p',
    castObjectId id = Some i
    ∧ projects db !! i = Some p
    ∧ (owner p = Some userId ∨ userId ∈ collaborators p)
    ∧ projects db' !! i = Some p'
    ∧ (∀ j, j ≠ i → projects db' !! j = projects db !! j)
    ∧ updatedAt p' = Some now
    ∧ (updates !! "name" = None → name p' = name p)
    ∧ (updates !! "description" = None → description p' = description p)
    ∧ (updates !! "technology" = None → technology p' = technology p)
    ∧ (updates !! "status" = None → status p' = status p)
    ∧ (updates !! "owner" = None → owner p' = owner p)
    ∧ (updates !! "collaborators" = None → collaborators p' = collaborators p)
    ∧ (updates !! "createdAt" = None → createdAt p' = createdAt p)
    ∧ json r = OneProject (populated db' i p').
Proof.
  intros _ Hput Hcode.
  destruct (put_project_ok _ _ _ _ _ _ _ Hput Hcode)
    as (i & p & a & Hi & Hp & Hvis & Ha & _ & -> & ->).
  apply Object_assign_paths in Ha as (Hn & Hd & Ht & Hs & Ho & Hc & Hca & _).
  exists i, p, (touch now a). simpl.
  split; [done|]. split; [done|]. split; [by apply visible_to_spec|].
  split; [apply lookup_insert_eq|].
  split; [intros j Hj; by apply lookup_insert_ne|]. split; [done|].
  repeat (split; [by eapply set_path_absent|]). done.
Qed.

(** X15. Changing the status: for a stored valid project and a caller who
    owns or collaborates on it, an update with the body [{ status: s }],
    [s] one of the four enumerated values, answers 200, and the caller's
    list then shows the project with status [s], the request time as
    [updatedAt] and every other path as before. *)
Theorem update_status_then_list (db : DB) (userId : ObjectId) (id : string) (i : ObjectId)
    (p : Project) (s : string) (now : Z) :
  castObjectId id = Some i →
  projects db !! i = Some p →
  validate p = true →
  owner p = Some userId ∨ userId ∈ collaborators p →
  s ∈ status_enum →
  let p' := {| name := name p; description := description p; technology := technology p;
               status := Some s; owner := owner p; collaborators := collaborators p;
               createdAt := createdAt p; updatedAt := Some now |} in
  let db' := with_projects db (<[i := p']> (projects db)) in
  put_project db userId id {[ "status" := JStr s ]} now
    = (db', respond 200 (OneProject (populated db' i p')))
  ∧ populated db' i p' ∈ listed db' userId.
Proof.
  intros Hi Hp Hvalid Hvis Hs p' db'.
  assert (Object_assign i p {[ "status" := JStr s ]}
          = Some {| name := name p; description := description p;
                    technology := technology p; status := Some s; owner := owner p;
                    collaborators := collaborators p; createdAt := createdAt p;
                    updatedAt := updatedAt p |}) as Hassign.
  { unfold Object_assign.
    rewrite lookup_singleton_eq, !lookup_singleton_ne by done. done. }
  assert (validate p' = true) as Hvalid'.
  { unfold validate in *. simpl.
    apply andb_true_iff in Hvalid as [Hvalid Ho].
    apply andb_true_iff in Hvalid as [Hvalid _].
    rewrite Hvalid, Ho. simpl. rewrite andb_true_r. by apply bool_decide_eq_true. }
  split.
  - unfold put_project. rewrite Hi.
    assert (findOne_by_id (projects db) i (visible_to userId) = Some p) as ->.
    { apply findOne_by_id_Some. split; [done|]. by apply visible_to_spec. }
    rewrite Hassign. unfold save. fold p'.
    change (touch now _) with p'. by rewrite Hvalid'.
  - apply elem_of_listed. exists p'. simpl. by rewrite lookup_insert_eq.
Qed.

(** X16. A delete that answered 200 removed exactly the addressed project:
    every other project is as it was, no user's list shows it any more, and
    a second delete or an update of the same id, by any caller, is answered
    404 and changes nothing. *)
Theorem delete_removes_for_everyone (db db' : DB) (userId : ObjectId) (id : string)
    (r : Response) :
  delete_project db userId id = (db', r) →
  statusCode r = 200 →
  ∃ i, castObjectId id = Some i
       ∧ projects db' = delete i (projects db)
       ∧ (∀ u v, v ∈ listed db' u → _id v ≠ i)
       ∧ (∀ u, delete_project db' u id
               = (db', respond 404 (Error "Project not found or insufficient permissions")))
       ∧ (∀ u updates now, put_project db' u id updates now
                           = (db', respond 404 (Error "Project not found"))).
Proof.
  intros Hdelete Hcode.
  destruct (delete_project_db db userId id) as [[_ Hne]|(i & p & Hi & Hp & _ & E)];
    [by rewrite Hdelete in Hne|].
  rewrite Hdelete in E. injection E as -> _. exists i.
  split; [done|]. split; [done|]. split; [|split].
  - intros u v Hv Hid. apply elem_of_listed in Hv as (q & Hq & _).
    rewrite Hid in Hq. simpl in Hq. by rewrite lookup_delete_eq in Hq.
  - intros u. unfold delete_project. rewrite Hi.
    assert (findOne_by_id (projects (with_projects db (delete i (projects db)))) i
              (owned_by u) = None) as ->; [|done].
    apply findOne_by_id_None. intros d Hd. simpl in Hd. by rewrite lookup_delete_eq in Hd.
  - intros u updates now. unfold put_project. rewrite Hi.
    assert (findOne_by_id (projects (with_projects db (delete i (projects db)))) i
              (visible_to u) = None) as ->; [|done].
    apply findOne_by_id_None. intros d Hd. simpl in Hd. by rewrite lookup_delete_eq in Hd.
Qed.

End Project_store.

(** ** Outcomes *)

Section Outcomes.
Context `{Platform}.

(** X18. No partial success, for requests whose update body names schema
    paths only: a request that is not answered 200 or 201 leaves the
    database exactly as it was, and its payload is an error object; a
    request answered 200 or 201 never carries an error object. *)
Theorem failure_changes_nothing (db : DB) (op : Operation) :
  plain op = true →
  (response_ok (reply db op) = false →
   step db op = db ∧ is_error (json (reply db op)) = true)
  ∧ (response_ok (reply db op) = true → is_error (json (reply db op)) = false).
Proof.
  intros _. destruct op as [u body newId now|u id updates now|u id|u|e pw]; simpl.
  - unfold post_projects. destruct (new_Project body u now) as [p|]; [|done].
    by destruct (save_new db newId p).
  - unfold put_project. destruct (castObjectId id) as [i|]; [|done].
    destruct (findOne_by_id (projects db) i (visible_to u)) as [p|]; [|done].
    destruct (Object_assign i p updates) as [a|]; [|done].
    by destruct (save db i (touch now a)).
  - unfold delete_project. destruct (castObjectId id) as [i|]; [|done].
    by destruct (findOne_by_id (projects db) i (owned_by u)).
  - done.
  - unfold post_login. destruct (findOne_by_email (users db) e) as [[i u]|]; [|done].
    by destruct (bcrypt_compare pw (password u)).
Qed.

(** X19. The number of stored projects moves with the answers, for
    requests whose update body names schema paths only: a create answered
    201 adds one, a delete answered 200 removes one, and every other
    request, updates included, leaves the number as it was. *)
Theorem project_count_follows_answers (db : DB) (op : Operation) :
  plain op = true →
  size (projects (step db op))
  = match op, statusCode (reply db op) with
    | Create _ _ _ _, 201 => S (size (projects db))
    | Delete _ _, 200 => pred (size (projects db))
    | _, _ => size (projects db)
    end.
Proof.
  intros _. destruct op as [u body newId now|u id updates now|u id|u|e pw]; simpl.
  - unfold post_projects. destruct (new_Project body u now) as [p|]; [|done].
    destruct (save_new db newId p) as [db1|] eqn:Hsave; [|done].
    apply save_new_Some in Hsave as (_ & Hfree & ->). simpl.
    by apply map_size_insert_None.
  - assert (size (projects (put_project db u id updates now).1) = size (projects db)) as ->.
    { destruct (put_project_db db u id updates now) as [E|(i & p & a & _ & Hp & _ & _ & E)];
        rewrite E; [done|]. simpl. by apply map_size_insert_Some. }
    by repeat case_match.
  - unfold delete_project. destruct (castObjectId id) as [i|]; [|done].
    destruct (findOne_by_id (projects db) i (owned_by u)) as [p|] eqn:Hfind; [|done].
    apply findOne_by_id_Some in Hfind as [Hp _]. simpl.
    rewrite (map_size_delete_Some i (projects db)) by by eexists. done.
  - by repeat case_match.
  - by repeat case_match.
Qed.

End Outcomes.

(** ** More on the relay *)

(** X21. Joining a project room adds the joining socket to that one room
    and changes no other membership; joining a second time changes
    nothing. *)
Theorem join_project_adds_one_member (rooms : Rooms) (socket : SocketId)
    (projectId : option JSON) :
  (∀ c room, c ∈ members (on_join_project rooms socket projectId) room ↔
             (room = project_room projectId ∧ c = socket) ∨ c ∈ members rooms room)
  ∧ on_join_project (on_join_project rooms socket projectId) socket projectId
    = on_join_project rooms socket projectId.
Proof.
  split.
  - intros c room. apply members_socket_join.
  - apply socket_join_idempotent.
Qed.

(** X22. No project id, one shared room: an update whose data has no
    [projectId] (what the dashboard sends after creating a project) goes to
    the room "project-undefined", the room a socket is put in when it joins
    with no argument or with the text "undefined". The relay checks no
    membership of the sender: a socket that never joined anything reaches
    that room's members. *)
Theorem update_without_project_id (rooms : Rooms) (sender c : SocketId) (data : Body) :
  data !! "projectId" = None →
  c ≠ sender →
  (∀ d, d ∈ on_project_update rooms sender data ↔
        recipient d ∈ members rooms "project-undefined" ∧ recipient d ≠ sender
        ∧ event d = "project-updated" ∧ payload d = data)
  ∧ (∃ d, d ∈ on_project_update (on_join_project rooms c None) sender data
          ∧ recipient d = c)
  ∧ (∃ d, d ∈ on_project_update (on_join_project rooms c (Some (JStr "undefined")))
                 sender data
          ∧ recipient d = c).
Proof.
  intros Hmissing Hne. unfold on_project_update. rewrite Hmissing.
  change (project_room None) with "project-undefined".
  split; [intros d; apply elem_of_socket_to_emit|].
  split.
  - exists {| recipient := c; event := "project-updated"; payload := data |}.
    split; [|done]. apply elem_of_socket_to_emit. simpl. split; [|done].
    apply (members_socket_join rooms c (project_room None)). by left.
  - exists {| recipient := c; event := "project-updated"; payload := data |}.
    split; [|done]. apply elem_of_socket_to_emit. simpl. split; [|done].
    apply (members_socket_join rooms c (project_room (Some (JStr "undefined")))). by left.
Qed.

(** * The further properties on concrete requests *)

Lemma seed_db_unique : unique_users seed_db.
Proof.
  intros i j u v Hu Hv Hsame. simpl in Hu, Hv.
  apply lookup_insert_Some in Hu as [[<- <-]|[_ Hu]];
    [|apply lookup_singleton_Some in Hu as [<- <-]];
    (apply lookup_insert_Some in Hv as [[<- <-]|[_ Hv]];
      [|apply lookup_singleton_Some in Hv as [<- <-]]);
    try done; by destruct Hsame.
Qed.

Lemma created_db_valid : valid_projects created_db.
Proof.
  intros i p Hp.
  assert (projects created_db = {[ demo := demo_project ]}) as E by (vm_compute; reflexivity).
  rewrite E in Hp. apply lookup_singleton_Some in Hp as [_ <-]. vm_compute. reflexivity.
Qed.

(** A header that is the one word "Bearer". *)
Lemma missing_token_is_401_witness :
  @route_delete_project fake_verifier created_db (Some "Bearer") demo_hex
  = (created_db, respond 401 (Error "Access token required")).
Proof.
  refine (proj2 (proj2 (proj2 (proj2
    (@missing_token_is_401 fake_platform fake_verifier created_db (Some "Bearer") _))))
    demo_hex).
  right. left. exists "Bearer". split; reflexivity.
Defined.

(** The scheme "Basic" and a trailer after the token. *)
Lemma scheme_and_trailer_ignored_witness :
  @authenticateToken fake_verifier (Some "Basic token:64b000000000000000000001 and more")
  = @authenticateToken fake_verifier (Some "Bearer token:64b000000000000000000001").
Proof.
  refine (proj2 (@scheme_and_trailer_ignored fake_verifier "Basic"
                   "token:64b000000000000000000001" "and more" _ _)); reflexivity.
Defined.

(** A token the verifier refuses. *)
Lemma refused_token_is_403_witness :
  @protected fake_verifier created_db (Some "Bearer forged")
    (λ userId, delete_project created_db userId demo_hex)
  = (created_db, respond 403 (Error "Invalid token")).
Proof.
  refine (proj1 (@refused_token_is_403 fake_verifier created_db "Bearer" "forged"
                   (λ userId, delete_project created_db userId demo_hex) _ _ _) _);
    [reflexivity | reflexivity | discriminate | reflexivity].
Defined.

(** A new username with Alice's email. *)
Lemma register_conflict_is_400_witness :
  @post_register fake_platform fake_hasher seed_db "alice2" "alice@x.com" "pw" "salt" carol
  = (seed_db, respond 400 (Error "User already exists")).
Proof.
  refine (@register_conflict_is_400 fake_platform fake_hasher seed_db "alice2" "alice@x.com"
            "pw" "salt" carol alice
            {| username := "alice"; email := "alice@x.com";
               password := "hash:pw"; role := "user" |} _ _).
  - vm_compute. reflexivity.
  - left. reflexivity.
Defined.

(** Carol registers. *)
Lemma register_stores_one_user_witness :
  users (@post_register fake_platform fake_hasher seed_db "carol" "carol@x.com" "pw" "salt"
           carol).1 !! carol
  = Some {| username := "carol"; email := "carol@x.com";
            password := "hash:pw"; role := "user" |}.
Proof.
  refine (proj1 (proj2 (@register_stores_one_user fake_platform fake_hasher seed_db
    (@post_register fake_platform fake_hasher seed_db "carol" "carol@x.com" "pw" "salt" carol).1
    "carol" "carol@x.com" "pw" "salt" carol
    (@post_register fake_platform fake_hasher seed_db "carol" "carol@x.com" "pw" "salt" carol).2
    _ _))).
  - apply surjective_pairing.
  - vm_compute. reflexivity.
Defined.

Lemma register_keeps_users_unique_witness :
  unique_users (@post_register fake_platform fake_hasher seed_db "carol" "carol@x.com" "pw"
                  "salt" carol).1.
Proof.
  exact (@register_keeps_users_unique fake_platform fake_hasher seed_db "carol" "carol@x.com"
           "pw" "salt" carol seed_db_unique).
Defined.

Lemma register_then_login_witness :
  @post_login fake_platform
    (@post_register fake_platform fake_hasher seed_db "carol" "carol@x.com" "pw" "salt" carol).1
    "carol@x.com" "pw"
  = respond 200 (Session "Login successful" "token:carol"
                   {| pu_id := carol; pu_username := "carol";
                      pu_email := "carol@x.com"; pu_role := "user" |}).
Proof.
  refine (@register_then_login fake_platform fake_hasher seed_db
    (@post_register fake_platform fake_hasher seed_db "carol" "carol@x.com" "pw" "salt" carol).1
    "carol" "carol@x.com" "pw" "salt" carol
    (@post_register fake_platform fake_hasher seed_db "carol" "carol@x.com" "pw" "salt" carol).2
    _ _ _).
  - reflexivity.
  - apply surjective_pairing.
  - vm_compute. reflexivity.
Defined.

(** Carol registers, then someone else asks for her email. *)
Lemma register_twice_is_400_witness :
  @post_register fake_platform fake_hasher
    (@post_register fake_platform fake_hasher seed_db "carol" "carol@x.com" "pw" "salt" carol).1
    "carla" "carol@x.com" "other" "pepper" 5
  = ((@post_register fake_platform fake_hasher seed_db "carol" "carol@x.com" "pw" "salt"
        carol).1,
     respond 400 (Error "User already exists")).
Proof.
  refine (@register_twice_is_400 fake_platform fake_hasher seed_db
    (@post_register fake_platform fake_hasher seed_db "carol" "carol@x.com" "pw" "salt" carol).1
    "carol" "carol@x.com" "pw" "salt" carol
    (@post_register fake_platform fake_hasher seed_db "carol" "carol@x.com" "pw" "salt" carol).2
    "carla" "carol@x.com" "other" "pepper" 5%N _ _ _).
  - apply surjective_pairing.
  - vm_compute. reflexivity.
  - left. reflexivity.
Defined.

(** Bob's email without a password. *)
Lemma login_outcomes_witness :
  @post_login_body fake_platform seed_db "bob@x.com" None
  = respond 500 (Error "Internal server error").
Proof.
  refine (proj2 (proj1 (proj2
    (@login_outcomes fake_platform seed_db "bob@x.com" seed_db_unique))
    bob {| username := "bob"; email := "bob@x.com";
           password := "hash:hunter2"; role := "user" |} _ _) None _).
  - vm_compute. reflexivity.
  - reflexivity.
  - intros pw. discriminate.
Defined.

Lemma requests_keep_projects_valid_witness :
  valid_projects
    (@run fake_platform created_db
       [Update alice demo_hex {[ "status" := JStr "shipped" ]} 2000;
        Update alice demo_hex {[ "status" := JStr "testing" ]} 3000;
        Create bob {[ "name" := JStr "" ]} 7 4000]).
Proof.
  exact (@requests_keep_projects_valid fake_platform created_db _ created_db_valid).
Defined.

(** Alice sets the status of [demo]. *)
Lemma update_changes_only_named_paths_witness :
  ∃ i p p',
    castObjectId demo_hex = Some i
    ∧ projects created_db !! i = Some p
    ∧ (owner p = Some alice ∨ alice ∈ collaborators p)
    ∧ projects (@put_project fake_platform created_db alice demo_hex
                  {[ "status" := JStr "deployed" ]} 2000).1 !! i = Some p'
    ∧ name p' = name p ∧ owner p' = owner p ∧ createdAt p' = createdAt p
    ∧ updatedAt p' = Some 2000%Z.
Proof.
  assert (@put_project fake_platform created_db alice demo_hex
            {[ "status" := JStr "deployed" ]} 2000
          = ((@put_project fake_platform created_db alice demo_hex
                {[ "status" := JStr "deployed" ]} 2000).1,
             (@put_project fake_platform created_db alice demo_hex
                {[ "status" := JStr "deployed" ]} 2000).2)) as Hput
    by apply surjective_pairing.
  assert (statusCode (@put_project fake_platform created_db alice demo_hex
                        {[ "status" := JStr "deployed" ]} 2000).2 = 200) as Hcode
    by (vm_compute; reflexivity).
  assert (names_only_schema_paths {[ "status" := JStr "deployed" ]} = true) as Hplain
    by (vm_compute; reflexivity).
  destruct (@update_changes_only_named_paths fake_platform _ _ _ _ _ _ _ Hplain Hput Hcode)
    as (i & p & p' & Hi & Hp & Hvis & Hp' & _ & Hu & Hn & _ & _ & _ & Ho & _ & Hc & _).
  exists i, p, p'.
  split; [exact Hi|]. split; [exact Hp|]. split; [exact Hvis|]. split; [exact Hp'|].
  split; [apply Hn; reflexivity|]. split; [apply Ho; reflexivity|].
  split; [apply Hc; reflexivity|exact Hu].
Defined.

(** Bob, a collaborator, marks [demo] as deployed. *)
Lemma update_status_then_list_witness :
  populated
    (with_projects shared_db
       (<[demo := {| name := Some "Demo"; description := None; technology := Some "React";
                     status := Some "deployed"; owner := Some alice; collaborators := [bob];
                     createdAt := Some 1000%Z; updatedAt := Some 3000%Z |}]>
          (projects shared_db)))
    demo
    {| name := Some "Demo"; description := None; technology := Some "React";
       status := Some "deployed"; owner := Some alice; collaborators := [bob];
       createdAt := Some 1000%Z; updatedAt := Some 3000%Z |}
  ∈ listed
      (with_projects shared_db
         (<[demo := {| name := Some "Demo"; description := None; technology := Some "React";
                       status := Some "deployed"; owner := Some alice; collaborators := [bob];
                       createdAt := Some 1000%Z; updatedAt := Some 3000%Z |}]>
            (projects shared_db)))
      bob.
Proof.
  refine (proj2 (@update_status_then_list fake_platform shared_db bob demo_hex demo
                   shared_project "deployed" 3000%Z _ _ _ _ _)).
  - vm_compute. reflexivity.
  - exact shared_db_demo.
  - vm_compute. reflexivity.
  - right. simpl. apply list_elem_of_here.
  - unfold status_enum. do 3 apply list_elem_of_further. apply list_elem_of_here.
Defined.

(** Alice asks for a status outside the enumeration: 500, nothing stored. *)
Lemma failure_changes_nothing_witness :
  @step fake_platform created_db
    (Update alice demo_hex {[ "status" := JStr "shipped" ]} 2000) = created_db.
Proof.
  assert (plain (Update alice demo_hex {[ "status" := JStr "shipped" ]} 2000) = true)
    as Hplain by (vm_compute; reflexivity).
  assert (response_ok (@reply fake_platform created_db
            (Update alice demo_hex {[ "status" := JStr "shipped" ]} 2000)) = false)
    as Hfailed by (vm_compute; reflexivity).
  exact (proj1 (proj1 (@failure_changes_nothing fake_platform created_db
                         (Update alice demo_hex {[ "status" := JStr "shipped" ]} 2000)
                         Hplain) Hfailed)).
Defined.

(** Bob's update of [demo] leaves one project in the collection. *)
Lemma project_count_follows_answers_witness :
  size (projects (@step fake_platform shared_db
                    (Update bob demo_hex {[ "status" := JStr "testing" ]} 3000))) = 1.
Proof.
  assert (plain (Update bob demo_hex {[ "status" := JStr "testing" ]} 3000) = true)
    as Hplain by (vm_compute; reflexivity).
  rewrite (@project_count_follows_answers fake_platform shared_db
             (Update bob demo_hex {[ "status" := JStr "testing" ]} 3000) Hplain).
  vm_compute. reflexivity.
Defined.

(** Alice deletes [demo]. *)
Lemma delete_removes_for_everyone_witness :
  ∃ i, castObjectId demo_hex = Some i
       ∧ projects (delete_project created_db alice demo_hex).1
         = delete i (projects created_db)
       ∧ (∀ u v, v ∈ listed (delete_project created_db alice demo_hex).1 u → _id v ≠ i)
       ∧ (∀ u, delete_project (delete_project created_db alice demo_hex).1 u demo_hex
               = ((delete_project created_db alice demo_hex).1,
                  respond 404 (Error "Project not found or insufficient permissions")))
       ∧ (∀ u updates now,
            @put_project fake_platform (delete_project created_db alice demo_hex).1 u
              demo_hex updates now
            = ((delete_project created_db alice demo_hex).1,
               respond 404 (Error "Project not found"))).
Proof.
  refine (@delete_removes_for_everyone fake_platform created_db
            (delete_project created_db alice demo_hex).1 alice demo_hex
            (delete_project created_db alice demo_hex).2 _ _).
  - apply surjective_pairing.
  - vm_compute. reflexivity.
Defined.

(** The dashboard's event after a create, sent by a socket that joined
    nothing. *)
Lemma update_without_project_id_witness :
  ∃ d, d ∈ on_project_update (on_join_project ∅ "s2" None) "s1"
             {[ "name" := JStr "Demo"; "action" := JStr "created" ]}
       ∧ recipient d = "s2".
Proof.
  refine (proj1 (proj2 (@update_without_project_id ∅ "s1" "s2"
                          {[ "name" := JStr "Demo"; "action" := JStr "created" ]} _ _))).
  - vm_compute. reflexivity.
  - discriminate.
Defined.
